(** * NutriCartAI: the cultural-cuisine rules engine

    A shallow embedding of [ai-services/cultural-cuisine-service.ts]:
    the substitution resolver, the authenticity scorer and the two
    region lookups, with the static tables they read.

    Conventions of the embedding.
    - A JavaScript string whose code units are all below 256 is a
      [string], one [ascii] per code unit.  On that range
      [String.prototype.toLowerCase] works code unit by code unit.
    - An object literal used as a table is the list of its own
      properties, in source order; reading a property walks the
      prototype chain, so the members of [Object.prototype] are
      visible under their names ([getProperty]).
    - A call that may throw returns a [completion]. *)

From Stdlib Require Import String Ascii List Bool ZArith NArith Lia.
Import ListNotations.
Open Scope string_scope.

Set Implicit Arguments.

(** ** JavaScript primitives used by the service *)

Module Js.

(** [c.toLowerCase()] for one code unit below 256: A-Z and the
    Latin-1 capitals U+00C0..U+00DE (U+00D7, the multiplication sign,
    apart) move up by 32; everything else is unchanged. *)
Definition lowerUnit (c : ascii) : ascii :=
  let n := N_of_ascii c in
  if ((65 <=? n) && (n <=? 90)
      || (192 <=? n) && (n <=? 222) && negb (n =? 215))%N
  then ascii_of_N (n + 32)
  else c.

(** [s.toLowerCase()] *)
Fixpoint toLowerCase (s : string) : string :=
  match s with
  | EmptyString => EmptyString
  | String c rest => String (lowerUnit c) (toLowerCase rest)
  end.

(** [s.includes(sub)]: [sub] occurs in [s] at some position. *)
Fixpoint includes (s sub : string) : bool :=
  String.prefix sub s
  || match s with
     | EmptyString => false
     | String _ rest => includes rest sub
     end.

(** Truthiness of a string value: only the empty string is falsy. *)
Definition truthy (s : string) : bool :=
  match s with
  | EmptyString => false
  | String _ _ => true
  end.

(** The value found under a property name of a table object: either
    one of the table's own entries, or a member of [Object.prototype]
    (a function, or the prototype object itself for [__proto__]).
    Both are truthy; a prototype member has none of an entry's
    fields. *)
Inductive value (A : Type) : Type :=
| Entry (a : A)
| PrototypeMember.
Arguments PrototypeMember {A}.

(** The property names every ordinary object inherits. *)
Definition objectPrototype : list string :=
  [ "constructor"; "__proto__"; "hasOwnProperty"; "isPrototypeOf";
    "propertyIsEnumerable"; "toLocaleString"; "toString"; "valueOf";
    "__defineGetter__"; "__defineSetter__"; "__lookupGetter__";
    "__lookupSetter__" ].

Fixpoint ownProperty (A : Type) (obj : list (string * A)) (key : string)
  : option A :=
  match obj with
  | [] => None
  | (k, v) :: rest => if String.eqb k key then Some v else ownProperty rest key
  end.

(** [obj[key]]: an own property first, then the prototype; [None] is
    [undefined]. *)
Definition getProperty (A : Type) (obj : list (string * A)) (key : string)
  : option (value A) :=
  match ownProperty obj key with
  | Some v => Some (Entry v)
  | None =>
      if existsb (String.eqb key) objectPrototype
      then Some PrototypeMember
      else None
  end.

Inductive error : Type :=
| TypeError.

(** How a call ends. *)
Inductive completion (A : Type) : Type :=
| Returns (a : A)
| Throws (e : error).
Arguments Throws {A} e.

Definition bind (A B : Type) (c : completion A) (k : A -> completion B)
  : completion B :=
  match c with
  | Returns a => k a
  | Throws e => Throws e
  end.

End Js.

Import Js.

Notation "x <- c ;; k" := (bind c (fun x => k))
  (at level 61, c at next level, right associativity).

(** ** Data model *)

Inductive FlavorImpact : Type :=
| minimal
| moderate
| significant.

Record IngredientSubstitution : Type := {
  original : string;
  substitute : string;
  notes : string;
  flavorImpact : FlavorImpact
}.

(** The value type of the record [getSubstitutionRules] returns. *)
Module Rule.
Record t : Type := {
  substitutes : list string;
  notes : string;
  flavorImpact : FlavorImpact
}.
End Rule.

(** Modelled from the spec: the [CulturalRecipe] type of
    [@shared/schema], of which the service reads the ordered list of
    authentic ingredient names only. *)
Record CulturalRecipe : Type := {
  authenticIngredients : list string
}.

(** Modelled from the spec: the [PantryItem] type of [@shared/schema],
    of which the service reads the free-text name only. *)
Record PantryItem : Type := {
  name : string
}.

Record Cuisine : Type := {
  region : string;
  keyIngredients : list string
}.

Record AuthenticityScore : Type := {
  score : Z;
  feedback : list string
}.

Record Pairings : Type := {
  mainDishes : list string;
  sideDishes : list string;
  desserts : list string;
  beverages : list string
}.

Record Etiquette : Type := {
  presentation : list string;
  customs : list string;
  taboos : list string;
  servingOrder : list string
}.

(** ** Static tables *)

Definition getSubstitutionRules : list (string * Rule.t) :=
  [ ("kaffir lime leaves",
     {| Rule.substitutes := ["lime zest"; "bay leaves with lime zest"];
        Rule.notes := "Use lime zest for citrus notes, bay leaf adds aromatic element";
        Rule.flavorImpact := moderate |});
    ("fish sauce",
     {| Rule.substitutes := ["soy sauce with salt"; "worcestershire sauce"];
        Rule.notes := "Add a pinch of salt and a drop of vinegar to better mimic umami flavor";
        Rule.flavorImpact := significant |});
    ("gochujang",
     {| Rule.substitutes := ["sriracha with miso paste"; "red pepper flakes with honey"];
        Rule.notes := "Mix 2 parts sriracha with 1 part miso for similar fermented spicy flavor";
        Rule.flavorImpact := moderate |});
    ("lemongrass",
     {| Rule.substitutes := ["lemon zest with ginger"; "lemon verbena"];
        Rule.notes := "Combine 1 tablespoon lemon zest with 1/4 teaspoon ginger powder";
        Rule.flavorImpact := moderate |});
    ("tahini",
     {| Rule.substitutes := ["smooth peanut butter"; "sunflower seed butter"];
        Rule.notes := "Thin with sesame oil if available for closer flavor profile";
        Rule.flavorImpact := minimal |});
    ("ghee",
     {| Rule.substitutes := ["clarified butter"; "butter"; "coconut oil"];
        Rule.notes := "Unsalted butter is your best alternative, coconut oil changes flavor profile";
        Rule.flavorImpact := minimal |});
    ("sumac",
     {| Rule.substitutes := ["lemon zest"; "amchoor powder"; "tamarind"];
        Rule.notes := "Add a touch of salt to lemon zest for similar tanginess";
        Rule.flavorImpact := moderate |});
    ("oyster sauce",
     {| Rule.substitutes := ["hoisin sauce"; "soy sauce with sugar"];
        Rule.notes := "Mix 1 tablespoon soy sauce with 1/2 teaspoon sugar and 1/2 teaspoon Worcestershire sauce";
        Rule.flavorImpact := moderate |});
    ("galangal",
     {| Rule.substitutes := ["ginger"; "ginger with lemon zest"];
        Rule.notes := "True galangal has a sharper, citrusy flavor than ginger";
        Rule.flavorImpact := moderate |});
    ("tamarind paste",
     {| Rule.substitutes := ["lime juice with brown sugar"; "pomegranate molasses"; "vinegar with dates"];
        Rule.notes := "Mix 1 part lime juice with 1 part brown sugar for similar sweet-sour profile";
        Rule.flavorImpact := moderate |});
    ("shiso leaves",
     {| Rule.substitutes := ["mint with basil"; "thai basil"];
        Rule.notes := "Equal parts mint and basil can approximate the complex flavor";
        Rule.flavorImpact := moderate |});
    ("miso paste",
     {| Rule.substitutes := ["tahini with soy sauce"; "vegetable bouillon"];
        Rule.notes := "Lacks fermented quality but provides umami base";
        Rule.flavorImpact := significant |});
    ("za'atar",
     {| Rule.substitutes := ["thyme with sesame seeds and sumac"; "thyme with lemon zest"];
        Rule.notes := "Mix 1 tbsp thyme, 1 tsp sesame seeds, pinch of salt and lemon zest";
        Rule.flavorImpact := moderate |});
    ("plantains",
     {| Rule.substitutes := ["green bananas"; "potatoes for savory dishes"];
        Rule.notes := "Texture will differ; use less cooking time";
        Rule.flavorImpact := significant |});
    ("paneer",
     {| Rule.substitutes := ["firm tofu"; "halloumi"; "queso fresco"];
        Rule.notes := "Drain tofu well and press before using";
        Rule.flavorImpact := moderate |}) ].

Definition pairings : list (string * Pairings) :=
  [ ("east_asia",
     {| mainDishes := ["Steamed Fish"; "Stir-fried Vegetables"; "Clay Pot Rice"];
        sideDishes := ["Pickled Vegetables"; "Cold Salad"; "Steamed Eggs"];
        desserts := ["Red Bean Soup"; "Mango Pudding"; "Egg Tarts"];
        beverages := ["Jasmine Tea"; "Oolong Tea"; "Rice Wine"] |});
    ("southeast_asia",
     {| mainDishes := ["Green Curry"; "Pad Thai"; "Beef Rendang"];
        sideDishes := ["Som Tam"; "Sticky Rice"; "Roti Canai"];
        desserts := ["Mango Sticky Rice"; "Thai Tea Ice Cream"; "Kuih"];
        beverages := ["Thai Iced Tea"; "Coconut Water"; "Sugarcane Juice"] |});
    ("south_asia",
     {| mainDishes := ["Butter Chicken"; "Biryani"; "Dal Makhani"];
        sideDishes := ["Naan"; "Raita"; "Chutney"];
        desserts := ["Gulab Jamun"; "Kheer"; "Jalebi"];
        beverages := ["Lassi"; "Masala Chai"; "Rooh Afza"] |});
    ("middle_east",
     {| mainDishes := ["Lamb Shawarma"; "Falafel"; "Kebabs"];
        sideDishes := ["Hummus"; "Tabbouleh"; "Baba Ganoush"];
        desserts := ["Baklava"; "Kunafa"; "Turkish Delight"];
        beverages := ["Mint Tea"; "Turkish Coffee"; "Ayran"] |});
    ("mediterranean",
     {| mainDishes := ["Paella"; "Moussaka"; "Risotto"];
        sideDishes := ["Greek Salad"; "Bruschetta"; "Dolmas"];
        desserts := ["Tiramisu"; "Baklava"; "Panna Cotta"];
        beverages := ["Wine"; "Limoncello"; "Ouzo"] |});
    ("latin_america",
     {| mainDishes := ["Tacos"; "Mole Poblano"; "Feijoada"];
        sideDishes := ["Guacamole"; "Elote"; "Black Beans"];
        desserts := ["Tres Leches Cake"; "Churros"; "Flan"];
        beverages := ["Horchata"; "Margarita"; "Agua Fresca"] |});
    ("caribbean",
     {| mainDishes := ["Jerk Chicken"; "Curry Goat"; "Ackee and Saltfish"];
        sideDishes := ["Rice and Peas"; "Festival"; "Plantains"];
        desserts := ["Rum Cake"; "Sweet Potato Pudding"; "Coconut Drops"];
        beverages := ["Rum Punch"; "Sorrel Drink"; "Ginger Beer"] |});
    ("west_africa",
     {| mainDishes := ["Jollof Rice"; "Egusi Soup"; "Peanut Stew"];
        sideDishes := ["Fufu"; "Fried Plantains"; "Moin Moin"];
        desserts := ["Chin Chin"; "Puff Puff"; "Coconut Candy"];
        beverages := ["Palm Wine"; "Bissap"; "Ginger Drink"] |});
    ("east_africa",
     {| mainDishes := ["Injera with Wat"; "Nyama Choma"; "Pilau Rice"];
        sideDishes := ["Chapati"; "Sukuma Wiki"; "Ugali"];
        desserts := ["Mandazi"; "Kashata"; "Maandazi"];
        beverages := ["Ethiopian Coffee"; "Tangawizi"; "Urwaga"] |});
    ("north_africa",
     {| mainDishes := ["Couscous"; "Tagine"; "Shakshuka"];
        sideDishes := ["Harissa"; "Zaalouk"; "Batbout"];
        desserts := ["Makroud"; "Msemen"; "Basbousa"];
        beverages := ["Mint Tea"; "Almond Milk"; "Hibiscus Tea"] |}) ].

Definition etiquette : list (string * Etiquette) :=
  [ ("east_asia",
     {| presentation :=
          [ "Serve rice in individual bowls";
            "Place shared dishes in the center";
            "Arrange food to highlight colors and textures";
            "Use small plates for individual portions" ];
        customs :=
          [ "Hold rice bowl close to mouth";
            "Use chopsticks correctly";
            "Pour tea for others before yourself";
            "Tap fingers as thanks when someone pours tea for you" ];
        taboos :=
          [ "Don't stick chopsticks vertically in rice";
            "Don't pass food directly from chopsticks to chopsticks";
            "Don't point with chopsticks";
            "Don't flip fish over on the plate" ];
        servingOrder :=
          [ "Soup first";
            "Rice and main dishes together";
            "Fruit or light dessert last";
            "Tea throughout the meal" ] |});
    ("southeast_asia",
     {| presentation :=
          [ "Serve food family-style on a raised platform";
            "Arrange dishes by spice level";
            "Include contrasting textures and flavors";
            "Garnish with fresh herbs and lime wedges" ];
        customs :=
          [ "Eat with right hand in some regions";
            "Use fork and spoon (fork to push, spoon to eat)";
            "Take small portions to sample everything";
            "Cool spicy dishes with plain rice" ];
        taboos :=
          [ "Don't use left hand for eating";
            "Don't place serving spoons in your mouth";
            "Don't leave chopsticks crossed";
            "Don't waste rice" ];
        servingOrder :=
          [ "All dishes served simultaneously";
            "Rice as the foundation";
            "Balance between spicy, sour, sweet and savory in one meal";
            "Fresh fruit for dessert" ] |});
    ("south_asia",
     {| presentation :=
          [ "Serve on thali plates with small compartments";
            "Balance colors and textures across the plate";
            "Place bread and rice separately";
            "Arrange accompaniments in small bowls" ];
        customs :=
          [ "Traditionally eat with right hand fingers";
            "Tear bread with fingers, not cutlery";
            "Share food and offer to others first";
            "Mix rice with curry using fingertips" ];
        taboos :=
          [ "Don't use left hand for eating or passing food";
            "Don't waste food on your plate";
            "Don't start eating before elders or guests";
            "Don't lick fingers in formal settings" ];
        servingOrder :=
          [ "Begin with something sweet in some regions";
            "Serve bread and rice with main dishes";
            "Sweet dish or paan to conclude the meal";
            "Yogurt or raita to balance spice" ] |});
    ("middle_east",
     {| presentation :=
          [ "Large central platters for sharing";
            "Multiple small mezze dishes";
            "Vibrant colors and garnishes";
            "Arrange bread in cloth-lined baskets" ];
        customs :=
          [ "Break bread with hands, never cut with knife";
            "Dip bread in shared dishes";
            "Serve elders and guests first";
            "Use right hand for eating" ];
        taboos :=
          [ "Don't refuse offered food (take at least a small portion)";
            "Don't eat with left hand";
            "Don't rush through meals";
            "Don't blow on hot food" ];
        servingOrder :=
          [ "Mezze (small appetizers) first";
            "Main dishes with bread";
            "Sweet tea and desserts after the meal";
            "Coffee to conclude" ] |});
    ("mediterranean",
     {| presentation :=
          [ "Simple, rustic presentation";
            "Fresh herbs as garnish";
            "Olive oil drizzled as finishing touch";
            "Colorful vegetable arrangements" ];
        customs :=
          [ "Bread accompanies the entire meal";
            "Share multiple dishes family-style";
            "Use bread to soak up sauces";
            "Leisurely pace with conversation" ];
        taboos :=
          [ "Don't rush the meal";
            "Don't waste bread";
            "Don't add cheese to seafood pasta in Italy";
            "Don't ask for additional seasoning before tasting" ];
        servingOrder :=
          [ "Antipasti/appetizers";
            "Pasta or rice dish";
            "Main protein dish";
            "Salad course";
            "Cheese and fruit";
            "Dessert and coffee" ] |});
    ("latin_america",
     {| presentation :=
          [ "Colorful arrangements";
            "Fresh garnishes like cilantro and lime";
            "Serve with traditional salsas on the side";
            "Family-style large platters" ];
        customs :=
          [ "Wait for eldest to begin eating";
            "Keep hands visible on table, not in lap";
            "Use tortillas or bread to scoop food";
            "Express appreciation for the food" ];
        taboos :=
          [ "Don't eat tacos with fork and knife";
            "Don't add hot sauce before tasting";
            "Don't refuse offered food in someone's home";
            "Don't leave the table until everyone is finished" ];
        servingOrder :=
          [ "Soup or light appetizer";
            "Main course with sides";
            "Dessert";
            "Coffee or digestif" ] |}) ].

(** ** The four operations *)

(** [pantryItems.some(item => item.name.toLowerCase().includes(sub.toLowerCase()))] *)
Definition inPantry (pantryItems : list PantryItem) (sub : string) : bool :=
  existsb (fun item => includes (toLowerCase (name item)) (toLowerCase sub))
          pantryItems.

(** [rule.substitutes[0]].  Index 0 of an empty array is [undefined];
    every rule of the table lists at least two candidates
    ([substitutes_nonempty]), so the default is never reached. *)
Definition firstSubstitute (rule : Rule.t) : string :=
  nth 0 (Rule.substitutes rule) EmptyString.

(** The two branches of [if (availableSubstitute)] push the same record
    up to the [substitute] field. *)
Definition chooseSubstitute (rule : Rule.t) (pantryItems : list PantryItem)
  : string :=
  let availableSubstitute := find (inPantry pantryItems) (Rule.substitutes rule) in
  match availableSubstitute with
  | Some sub => if truthy sub then sub else firstSubstitute rule
  | None => firstSubstitute rule
  end.

(** One iteration of the [for ... of] loop over the ingredients;
    [substitutions] is the array being filled.  A prototype member
    passes [if (rule)], has no [substitutes] field, and the call of
    [find] on [undefined] throws. *)
Definition substituteIngredient (pantryItems : list PantryItem)
  (substitutions : list IngredientSubstitution) (ingredient : string)
  : completion (list IngredientSubstitution) :=
  match getProperty getSubstitutionRules (toLowerCase ingredient) with
  | Some (Entry rule) =>
      Returns (substitutions ++
               [ {| original := ingredient;
                    substitute := chooseSubstitute rule pantryItems;
                    notes := Rule.notes rule;
                    flavorImpact := Rule.flavorImpact rule |} ])%list
  | Some PrototypeMember => Throws TypeError
  | None => Returns substitutions
  end.

Fixpoint forEachIngredient (pantryItems : list PantryItem)
  (ingredients : list string) (substitutions : list IngredientSubstitution)
  : completion (list IngredientSubstitution) :=
  match ingredients with
  | [] => Returns substitutions
  | ingredient :: rest =>
      substitutions' <- substituteIngredient pantryItems substitutions ingredient ;;
      forEachIngredient pantryItems rest substitutions'
  end.

Definition findIngredientSubstitutes (recipe : CulturalRecipe)
  (pantryItems : list PantryItem) (userRegion : string)
  : completion (list IngredientSubstitution) :=
  forEachIngredient pantryItems (authenticIngredients recipe) [].

(** One iteration of the scoring loop on the pair of locals
    [(score, feedback)].  The score stays an integer far inside the
    range a JavaScript number holds exactly, so it is a [Z]. *)
Definition scoreSubstitution (acc : Z * list string)
  (sub : IngredientSubstitution) : Z * list string :=
  let '(score, feedback) := acc in
  match flavorImpact sub with
  | minimal =>
      ((score - 5)%Z,
       (feedback ++
        [ ("Using " ++ substitute sub ++ " instead of " ++ original sub
           ++ " has minimal impact on authenticity")%string ])%list)
  | moderate =>
      ((score - 10)%Z,
       (feedback ++
        [ ("Using " ++ substitute sub ++ " instead of " ++ original sub
           ++ " moderately affects the authentic flavor")%string ])%list)
  | significant =>
      ((score - 20)%Z,
       (feedback ++
        [ ("Using " ++ substitute sub ++ " instead of " ++ original sub
           ++ " significantly changes the traditional taste")%string ])%list)
  end.

Definition analyzeAuthenticityScore (recipe : CulturalRecipe)
  (usedSubstitutions : list IngredientSubstitution) : AuthenticityScore :=
  let '(score, feedback) :=
    fold_left scoreSubstitution usedSubstitutions (100%Z, []) in
  {| score := Z.max 0 score; feedback := feedback |}.

(** [pairings[region] || { ...empty lists... }] *)
Definition getTraditionalPairings (region : string) : value Pairings :=
  match getProperty pairings region with
  | Some v => v
  | None =>
      Entry {| mainDishes := []; sideDishes := []; desserts := [];
               beverages := [] |}
  end.

(** [v.field || []]: an array, even an empty one, is truthy; a
    prototype member has no such field. *)
Definition fieldOr (A : Type) (field : A -> list string) (v : value A)
  : list string :=
  match v with
  | Entry a => field a
  | PrototypeMember => []
  end.

Definition findComplementaryDishes (recipe : CulturalRecipe) (cuisine : Cuisine)
  : Pairings :=
  let pairings := getTraditionalPairings (region cuisine) in
  {| mainDishes := fieldOr mainDishes pairings;
     sideDishes := fieldOr sideDishes pairings;
     desserts := fieldOr desserts pairings;
     beverages := fieldOr beverages pairings |}.

(** [etiquette[region] || { ...empty lists... }] *)
Definition getRegionalEtiquette (region : string) : value Etiquette :=
  match getProperty etiquette region with
  | Some v => v
  | None =>
      Entry {| presentation := []; customs := []; taboos := [];
               servingOrder := [] |}
  end.

Definition getServingEtiquetteGuide (recipe : CulturalRecipe) (region : string)
  : Etiquette :=
  let etiquette := getRegionalEtiquette region in
  {| presentation := fieldOr presentation etiquette;
     customs := fieldOr customs etiquette;
     taboos := fieldOr taboos etiquette;
     servingOrder := fieldOr servingOrder etiquette |}.

(** ** Vocabulary of the specification *)

(** [sub] occurs in [s]: some text before it, some text after. *)
Definition substringOf (sub s : string) : Prop :=
  exists before after, s = before ++ sub ++ after.

(** Some pantry item's lowercased name contains the lowercased
    candidate. *)
Definition matchedInPantry (pantryItems : list PantryItem) (sub : string)
  : Prop :=
  exists item,
    In item pantryItems
    /\ substringOf (toLowerCase sub) (toLowerCase (name item)).

(** The rule keyed by the lowercased ingredient, if the table has one. *)
Definition ruleFor (ingredient : string) : option Rule.t :=
  ownProperty getSubstitutionRules (toLowerCase ingredient).

(** [candidate] is what the specification selects from [rule]: the
    first candidate, in declared order, matched in the pantry, or the
    first-listed candidate when none is matched. *)
Definition selectedFrom (rule : Rule.t) (pantryItems : list PantryItem)
  (candidate : string) : Prop :=
  (exists earlier later,
      Rule.substitutes rule = (earlier ++ candidate :: later)%list
      /\ matchedInPantry pantryItems candidate
      /\ forall c, In c earlier -> ~ matchedInPantry pantryItems c)
  \/ ((forall c, In c (Rule.substitutes rule) -> ~ matchedInPantry pantryItems c)
      /\ exists later, Rule.substitutes rule = candidate :: later).

(** What the specification emits for one ingredient. *)
Definition suggestion (pantryItems : list PantryItem) (ingredient : string)
  : list IngredientSubstitution :=
  match ruleFor ingredient with
  | Some rule =>
      [ {| original := ingredient;
           substitute := chooseSubstitute rule pantryItems;
           notes := Rule.notes rule;
           flavorImpact := Rule.flavorImpact rule |} ]
  | None => []
  end.

(** The lowercased ingredient keys a rule of the table. *)
Definition hasRule (ingredient : string) : bool :=
  match ruleFor ingredient with
  | Some _ => true
  | None => false
  end.

(** The ingredient's lowercased name is a member of [Object.prototype]. *)
Definition shadowsPrototype (ingredient : string) : bool :=
  existsb (String.eqb (toLowerCase ingredient)) objectPrototype.

Definition FlavorImpact_eq_dec (a b : FlavorImpact) : {a = b} + {a <> b}.
Proof. decide equality. Defined.

(** Number of substitutions of one impact class. *)
Definition countImpact (impact : FlavorImpact)
  (subs : list IngredientSubstitution) : Z :=
  Z.of_nat (count_occ FlavorImpact_eq_dec (map flavorImpact subs) impact).

(** The per-class wording of the feedback. *)
Definition impactPhrase (impact : FlavorImpact) : string :=
  match impact with
  | minimal => "has minimal impact on authenticity"
  | moderate => "moderately affects the authentic flavor"
  | significant => "significantly changes the traditional taste"
  end.

Definition feedbackFor (sub : IngredientSubstitution) : string :=
  "Using " ++ substitute sub ++ " instead of " ++ original sub ++ " "
  ++ impactPhrase (flavorImpact sub).

Definition regionCodes : list string :=
  [ "east_asia"; "southeast_asia"; "south_asia"; "middle_east";
    "mediterranean"; "latin_america"; "caribbean"; "west_africa";
    "east_africa"; "north_africa" ].

Definition etiquetteRegionCodes : list string :=
  [ "east_asia"; "southeast_asia"; "south_asia"; "middle_east";
    "mediterranean"; "latin_america" ].

Definition noPairings : Pairings :=
  {| mainDishes := []; sideDishes := []; desserts := []; beverages := [] |}.

Definition noEtiquette : Etiquette :=
  {| presentation := []; customs := []; taboos := []; servingOrder := [] |}.

(** ** Strings *)

Lemma prefix_app (p s : string) :
  String.prefix p s = true <-> exists rest, s = p ++ rest.
Proof.
  revert s; induction p as [|a p IH]; intros s; simpl.
  - split; [intros _; exists s; reflexivity | now destruct s].
  - destruct s as [|b s]; simpl.
    + split; [discriminate | intros [rest H]; discriminate].
    + destruct (ascii_dec a b) as [->|Hab].
      * rewrite IH. split; intros [rest H]; exists rest.
        -- now rewrite H.
        -- now inversion H.
      * split; [discriminate | intros [rest H]; congruence].
Qed.

Lemma includes_spec (s sub : string) :
  includes s sub = true <-> substringOf sub s.
Proof.
  unfold substringOf. induction s as [|c s IH].
  - cbn [includes]. rewrite orb_false_r, prefix_app. split.
    + intros [rest H]. exists "", rest. exact H.
    + intros [[|x before] [after H]]; [now exists after | discriminate].
  - cbn [includes]. rewrite orb_true_iff, prefix_app, IH. split.
    + intros [[rest H] | [before [after H]]].
      * exists "", rest. exact H.
      * exists (String c before), after. simpl. now rewrite H.
    + intros [[|x before] [after H]].
      * left. now exists after.
      * right. exists before, after. simpl in H. now inversion H.
Qed.

Lemma inPantry_spec (pantryItems : list PantryItem) (sub : string) :
  inPantry pantryItems sub = true <-> matchedInPantry pantryItems sub.
Proof.
  unfold inPantry, matchedInPantry. rewrite existsb_exists.
  split; intros [item [Hin H]]; exists item; split; auto;
    now apply includes_spec.
Qed.

Lemma inPantry_false (pantryItems : list PantryItem) (sub : string) :
  inPantry pantryItems sub = false <-> ~ matchedInPantry pantryItems sub.
Proof.
  rewrite <- inPantry_spec. destruct (inPantry pantryItems sub); split;
    congruence.
Qed.

(** Lowercasing leaves no capital A-Z behind. *)
Definition isCapital (c : ascii) : bool :=
  let n := N_of_ascii c in ((65 <=? n) && (n <=? 90))%N.

Lemma lowerUnit_not_capital (c : ascii) : isCapital (lowerUnit c) = false.
Proof. destruct c as [[] [] [] [] [] [] [] []]; reflexivity. Qed.

Lemma toLowerCase_no_capital (s : string) :
  existsb isCapital (list_ascii_of_string (toLowerCase s)) = false.
Proof.
  induction s as [|c s IH]; simpl; [reflexivity|].
  now rewrite lowerUnit_not_capital, IH.
Qed.

(** ** Table objects *)

Lemma ownProperty_In (A : Type) (obj : list (string * A)) key v :
  ownProperty obj key = Some v -> In (key, v) obj.
Proof.
  induction obj as [|[k w] obj IH]; simpl; [discriminate|].
  destruct (String.eqb k key) eqn:E.
  - apply String.eqb_eq in E. intros [= ->]. left. now subst.
  - intros H. right. auto.
Qed.

Lemma ownProperty_None (A : Type) (obj : list (string * A)) key :
  ~ In key (map fst obj) -> ownProperty obj key = None.
Proof.
  induction obj as [|[k w] obj IH]; simpl; [reflexivity|].
  intros H. destruct (String.eqb k key) eqn:E.
  - apply String.eqb_eq in E. tauto.
  - apply IH. tauto.
Qed.

Lemma pairings_keys : map fst pairings = regionCodes.
Proof. reflexivity. Qed.

Lemma etiquette_keys : map fst etiquette = etiquetteRegionCodes.
Proof. reflexivity. Qed.

(** Every rule lists at least two candidates, none of them the empty
    string. *)
Definition wellFormedRule (rule : Rule.t) : bool :=
  (2 <=? length (Rule.substitutes rule))%nat
  && forallb truthy (Rule.substitutes rule).

Lemma rules_wellFormed :
  forallb (fun kv => wellFormedRule (snd kv)) getSubstitutionRules = true.
Proof. vm_compute. reflexivity. Qed.

Lemma ruleFor_wellFormed ingredient rule :
  ruleFor ingredient = Some rule -> wellFormedRule rule = true.
Proof.
  intros H. apply ownProperty_In in H.
  exact (proj1 (forallb_forall _ _) rules_wellFormed _ H).
Qed.

Lemma substitutes_nonempty (rule : Rule.t) :
  wellFormedRule rule = true ->
  exists first later, Rule.substitutes rule = first :: later.
Proof.
  unfold wellFormedRule. destruct (Rule.substitutes rule) as [|c l]; simpl.
  - discriminate.
  - intros _. now exists c, l.
Qed.

(** No rule is keyed by a name of [Object.prototype]. *)
Lemma shadowsPrototype_no_rule ingredient :
  shadowsPrototype ingredient = true -> ruleFor ingredient = None.
Proof.
  unfold shadowsPrototype, ruleFor. intros H.
  apply existsb_exists in H. destruct H as [k [Hin Hk]].
  apply String.eqb_eq in Hk. rewrite Hk.
  unfold objectPrototype in Hin. simpl in Hin.
  repeat (destruct Hin as [<-|Hin]; [reflexivity|]). contradiction.
Qed.

(** Only two of the inherited names are all lowercase, so only they can
    be reached through [toLowerCase]. *)
Lemma shadowsPrototype_iff ingredient :
  shadowsPrototype ingredient = true
  <-> toLowerCase ingredient = "constructor"
      \/ toLowerCase ingredient = "__proto__".
Proof.
  unfold shadowsPrototype. split.
  - intros H. apply existsb_exists in H. destruct H as [k [Hin Hk]].
    apply String.eqb_eq in Hk.
    pose proof (toLowerCase_no_capital ingredient) as Hcap.
    rewrite Hk in Hcap |- *. simpl in Hin.
    destruct Hin as [<-|Hin]; [now left|].
    destruct Hin as [<-|Hin]; [now right|].
    repeat (destruct Hin as [<-|Hin]; [discriminate Hcap|]). contradiction.
  - intros [-> | ->]; reflexivity.
Qed.

(** ** The substitution resolver *)

Lemma find_split (A : Type) (f : A -> bool) (l : list A) (x : A) :
  find f l = Some x ->
  exists earlier later,
    l = (earlier ++ x :: later)%list
    /\ f x = true
    /\ forall y, In y earlier -> f y = false.
Proof.
  induction l as [|a l IH]; simpl; [discriminate|].
  destruct (f a) eqn:E.
  - intros [= ->]. exists [], l. simpl. repeat split; tauto.
  - intros H. destruct (IH H) as [earlier [later [-> [Hx Hy]]]].
    exists (a :: earlier), later. simpl. repeat split; auto.
    intros y [<-|Hin]; auto.
Qed.

Section Resolver.

Variable pantryItems : list PantryItem.

(** The code's choice is the specification's choice, for every rule
    with a candidate and no empty candidate name. *)
Lemma chooseSubstitute_selected rule :
  wellFormedRule rule = true ->
  selectedFrom rule pantryItems (chooseSubstitute rule pantryItems).
Proof.
  intros Hwf. unfold chooseSubstitute, selectedFrom.
  destruct (find (inPantry pantryItems) (Rule.substitutes rule)) as [sub|] eqn:E.
  - destruct (find_split _ _ E) as [earlier [later [Heq [Hsub Hearlier]]]].
    assert (Htruthy : truthy sub = true).
    { unfold wellFormedRule in Hwf. apply andb_prop in Hwf.
      apply (proj1 (forallb_forall _ _) (proj2 Hwf)).
      rewrite Heq. apply in_elt. }
    rewrite Htruthy. left. exists earlier, later. repeat split.
    + exact Heq.
    + now apply inPantry_spec.
    + intros c Hc. apply inPantry_false. auto.
  - right. split.
    + intros c Hc. apply inPantry_false. exact (find_none _ _ E c Hc).
    + destruct (@substitutes_nonempty rule Hwf) as [first [later Heq]].
      exists later. unfold firstSubstitute. now rewrite Heq.
Qed.

Lemma chooseSubstitute_In rule :
  wellFormedRule rule = true ->
  In (chooseSubstitute rule pantryItems) (Rule.substitutes rule).
Proof.
  intros Hwf.
  destruct (@chooseSubstitute_selected rule Hwf)
    as [[earlier [later [Heq _]]] | [_ [later Heq]]]; rewrite Heq.
  - apply in_elt.
  - now left.
Qed.

(** One iteration: throw on an inherited name, else append what the
    specification emits. *)
Lemma substituteIngredient_spec substitutions ingredient :
  substituteIngredient pantryItems substitutions ingredient
  = if shadowsPrototype ingredient
    then Throws TypeError
    else Returns (substitutions ++ suggestion pantryItems ingredient)%list.
Proof.
  unfold substituteIngredient, getProperty, suggestion.
  pose proof (@shadowsPrototype_no_rule ingredient) as Hno.
  unfold ruleFor in *. fold (shadowsPrototype ingredient).
  destruct (shadowsPrototype ingredient).
  - now rewrite Hno.
  - destruct (ownProperty getSubstitutionRules (toLowerCase ingredient)).
    + reflexivity.
    + now rewrite app_nil_r.
Qed.

Lemma forEachIngredient_returns ingredients :
  forall substitutions,
    forallb (fun i => negb (shadowsPrototype i)) ingredients = true ->
    forEachIngredient pantryItems ingredients substitutions
    = Returns (substitutions ++ flat_map (suggestion pantryItems) ingredients)%list.
Proof.
  induction ingredients as [|i rest IH]; intros substitutions H; simpl.
  - now rewrite app_nil_r.
  - simpl in H. apply andb_prop in H. destruct H as [Hi Hrest].
    rewrite substituteIngredient_spec.
    apply negb_true_iff in Hi. rewrite Hi. simpl.
    rewrite (IH _ Hrest). now rewrite <- app_assoc.
Qed.

Lemma forEachIngredient_throws ingredients :
  forall substitutions,
    forallb (fun i => negb (shadowsPrototype i)) ingredients = false ->
    forEachIngredient pantryItems ingredients substitutions = Throws TypeError.
Proof.
  induction ingredients as [|i rest IH]; intros substitutions H; simpl in *.
  - discriminate.
  - rewrite substituteIngredient_spec.
    destruct (shadowsPrototype i); simpl in *; [reflexivity|].
    now apply IH.
Qed.

(** The whole call: it throws exactly when some ingredient lowercases
    to an inherited name, and otherwise returns the suggestions of the
    ingredients, concatenated in input order. *)
Lemma findIngredientSubstitutes_spec recipe userRegion :
  findIngredientSubstitutes recipe pantryItems userRegion
  = if forallb (fun i => negb (shadowsPrototype i)) (authenticIngredients recipe)
    then Returns (flat_map (suggestion pantryItems) (authenticIngredients recipe))
    else Throws TypeError.
Proof.
  unfold findIngredientSubstitutes.
  destruct (forallb _ (authenticIngredients recipe)) eqn:E.
  - now rewrite forEachIngredient_returns.
  - now apply forEachIngredient_throws.
Qed.

(** On every input on which the call returns, each ingredient with a
    rule gets the candidate the specification selects, at its place in
    the output. *)
Lemma findIngredientSubstitutes_selects recipe userRegion
  before ingredient after rule :
  authenticIngredients recipe = (before ++ ingredient :: after)%list ->
  ruleFor ingredient = Some rule ->
  forallb (fun i => negb (shadowsPrototype i)) (authenticIngredients recipe) = true ->
  exists sub,
    selectedFrom rule pantryItems sub
    /\ findIngredientSubstitutes recipe pantryItems userRegion
       = Returns (flat_map (suggestion pantryItems) before
                  ++ {| original := ingredient;
                        substitute := sub;
                        notes := Rule.notes rule;
                        flavorImpact := Rule.flavorImpact rule |}
                  :: flat_map (suggestion pantryItems) after)%list.
Proof.
  intros Hsplit Hrule Hsafe.
  exists (chooseSubstitute rule pantryItems). split.
  - apply chooseSubstitute_selected. exact (ruleFor_wellFormed _ Hrule).
  - rewrite findIngredientSubstitutes_spec, Hsafe, Hsplit.
    rewrite flat_map_app. simpl. unfold suggestion at 2.
    now rewrite Hrule.
Qed.

(** Originals of the output: the ingredients that have a rule, in
    input order, each once per occurrence. *)
Lemma suggestion_originals ingredients :
  map original (flat_map (suggestion pantryItems) ingredients)
  = filter hasRule ingredients.
Proof.
  induction ingredients as [|i rest IH]; simpl; [reflexivity|].
  rewrite map_app, IH. unfold suggestion, hasRule.
  destruct (ruleFor i); reflexivity.
Qed.

Lemma findIngredientSubstitutes_originals recipe userRegion out :
  findIngredientSubstitutes recipe pantryItems userRegion = Returns out ->
  map original out = filter hasRule (authenticIngredients recipe)
  /\ (length out <= length (authenticIngredients recipe))%nat.
Proof.
  rewrite findIngredientSubstitutes_spec.
  destruct (forallb _ _); [|discriminate]. intros [= <-].
  assert (H := suggestion_originals (authenticIngredients recipe)).
  split; [exact H|].
  rewrite <- (length_map original), H. apply filter_length_le.
Qed.

End Resolver.

(** ** The authenticity scorer *)

Lemma scoreSubstitution_fold subs :
  forall score feedback,
    fold_left scoreSubstitution subs (score, feedback)
    = ((score - 5 * countImpact minimal subs
              - 10 * countImpact moderate subs
              - 20 * countImpact significant subs)%Z,
       (feedback ++ map feedbackFor subs)%list).
Proof.
  unfold countImpact.
  induction subs as [|sub subs IH]; intros score feedback.
  - simpl. rewrite app_nil_r. f_equal. lia.
  - cbn [fold_left map count_occ].
    destruct (scoreSubstitution (score, feedback) sub) as [score' feedback']
      eqn:Hstep.
    rewrite IH. unfold scoreSubstitution in Hstep. unfold feedbackFor at 2.
    destruct (flavorImpact sub) eqn:E; injection Hstep as <- <-;
      rewrite <- app_assoc;
      repeat match goal with
             | |- context [FlavorImpact_eq_dec ?a ?b] =>
                 destruct (FlavorImpact_eq_dec a b); try discriminate;
                 try contradiction
             end;
      (apply pair_equal_spec; split;
       [rewrite ?Nat2Z.inj_succ; lia | reflexivity]).
Qed.

(** ** Claims *)

(** C1.  The specification promises, for every ingredient list and
    pantry, that each ingredient with a rule gets the first candidate
    matched in the pantry, or else the rule's first-listed candidate.
    On the list "constructor", "fish sauce" the ingredient "fish sauce"
    has a rule, yet the call throws a TypeError before the loop reaches
    it and no substitute is selected for it: "constructor" is read from
    [Object.prototype], passes [if (rule)], and has no [substitutes] to
    search.
    ([findIngredientSubstitutes_selects] gives the promised selection
    on every input on which the call returns.) *)
Theorem findIngredientSubstitutes_selection_lost :
  ruleFor "fish sauce"
  = Some {| Rule.substitutes := ["soy sauce with salt"; "worcestershire sauce"];
            Rule.notes := "Add a pinch of salt and a drop of vinegar to better mimic umami flavor";
            Rule.flavorImpact := significant |}
  /\ forall pantryItems userRegion,
       findIngredientSubstitutes
         {| authenticIngredients := ["constructor"; "fish sauce"] |}
         pantryItems userRegion
       = Throws TypeError.
Proof.
  split; [reflexivity|].
  intros pantryItems userRegion.
  now rewrite findIngredientSubstitutes_spec.
Qed.

(** C2.  For every sequence of substitutions the score is
    max(0, 100 - 5*minimal - 10*moderate - 20*significant), there is
    exactly one feedback string per substitution, in input order, each
    "Using <substitute> instead of <original> <phrase of its class>";
    the score is never negative; three substitutions of impacts
    minimal, moderate, significant score 65 with their three feedback
    strings. *)
Theorem analyzeAuthenticityScore_spec :
  forall recipe usedSubstitutions,
    let result := analyzeAuthenticityScore recipe usedSubstitutions in
    score result
    = Z.max 0 (100 - 5 * countImpact minimal usedSubstitutions
                   - 10 * countImpact moderate usedSubstitutions
                   - 20 * countImpact significant usedSubstitutions)
    /\ feedback result = map feedbackFor usedSubstitutions
    /\ length (feedback result) = length usedSubstitutions
    /\ (0 <= score result)%Z
    /\ forall o1 s1 n1 o2 s2 n2 o3 s3 n3,
         analyzeAuthenticityScore recipe
           [ {| original := o1; substitute := s1; notes := n1;
                flavorImpact := minimal |};
             {| original := o2; substitute := s2; notes := n2;
                flavorImpact := moderate |};
             {| original := o3; substitute := s3; notes := n3;
                flavorImpact := significant |} ]
         = {| score := 65;
              feedback :=
                [ "Using " ++ s1 ++ " instead of " ++ o1
                  ++ " has minimal impact on authenticity";
                  "Using " ++ s2 ++ " instead of " ++ o2
                  ++ " moderately affects the authentic flavor";
                  "Using " ++ s3 ++ " instead of " ++ o3
                  ++ " significantly changes the traditional taste" ] |}.
Proof.
  intros recipe usedSubstitutions result. subst result.
  unfold analyzeAuthenticityScore.
  rewrite scoreSubstitution_fold. cbn [score feedback app].
  split; [reflexivity|]. split; [reflexivity|].
  split; [apply length_map|]. split; [apply Z.le_max_l|].
  intros. reflexivity.
Qed.

(** C3, as the specification states it, fails: with the pantry
    "Light Soy Sauce" the substitute returned for "fish sauce" is not
    one matched in the pantry.  Neither candidate of the rule occurs in
    "light soy sauce"; "soy sauce with salt" is longer than the pantry
    name. *)
Lemma fish_sauce_not_selected_by_match :
  ~ (exists sub,
        findIngredientSubstitutes
          {| authenticIngredients := ["fish sauce"] |}
          [ {| name := "Light Soy Sauce" |} ] ""
        = Returns [ {| original := "fish sauce";
                       substitute := sub;
                       notes := "Add a pinch of salt and a drop of vinegar to better mimic umami flavor";
                       flavorImpact := significant |} ]
        /\ sub = "soy sauce with salt"
        /\ matchedInPantry [ {| name := "Light Soy Sauce" |} ] sub).
Proof.
  intros [sub [_ [-> H]]].
  apply inPantry_spec in H. vm_compute in H. discriminate.
Qed.

(** C3, amended.  For the single ingredient "fish sauce" and the pantry
    of the one item "Light Soy Sauce" the call returns one substitution
    whose substitute is "soy sauce with salt"; no candidate of the rule
    is matched in the pantry, and the substitute is the rule's
    first-listed candidate, taken by the fallback branch. *)
Theorem fish_sauce_light_soy_sauce :
  forall userRegion,
    findIngredientSubstitutes
      {| authenticIngredients := ["fish sauce"] |}
      [ {| name := "Light Soy Sauce" |} ] userRegion
    = Returns [ {| original := "fish sauce";
                   substitute := "soy sauce with salt";
                   notes := "Add a pinch of salt and a drop of vinegar to better mimic umami flavor";
                   flavorImpact := significant |} ]
    /\ find (inPantry [ {| name := "Light Soy Sauce" |} ])
            ["soy sauce with salt"; "worcestershire sauce"] = None
    /\ ~ matchedInPantry [ {| name := "Light Soy Sauce" |} ] "soy sauce with salt"
    /\ ~ matchedInPantry [ {| name := "Light Soy Sauce" |} ] "worcestershire sauce"
    /\ firstSubstitute
         {| Rule.substitutes := ["soy sauce with salt"; "worcestershire sauce"];
            Rule.notes := "Add a pinch of salt and a drop of vinegar to better mimic umami flavor";
            Rule.flavorImpact := significant |}
       = "soy sauce with salt".
Proof.
  intros userRegion. repeat split; try reflexivity;
    apply inPantry_false; reflexivity.
Qed.

(** The same pantry does not steer the choice for "oyster sauce"
    either: its second candidate "soy sauce with sugar" is not matched
    by "Light Soy Sauce", and the first-listed "hoisin sauce" comes
    back. *)
Example oyster_sauce_light_soy_sauce :
  findIngredientSubstitutes
    {| authenticIngredients := ["oyster sauce"] |}
    [ {| name := "Light Soy Sauce" |} ] ""
  = Returns [ {| original := "oyster sauce";
                 substitute := "hoisin sauce";
                 notes := "Mix 1 tablespoon soy sauce with 1/2 teaspoon sugar and 1/2 teaspoon Worcestershire sauce";
                 flavorImpact := moderate |} ].
Proof. reflexivity. Qed.

(** A pantry name that does contain a candidate selects it over the
    first-listed one, whatever the casing. *)
Example ghee_unsalted_butter :
  findIngredientSubstitutes
    {| authenticIngredients := ["Ghee"] |}
    [ {| name := "Unsalted BUTTER" |} ] ""
  = Returns [ {| original := "Ghee";
                 substitute := "butter";
                 notes := "Unsalted butter is your best alternative, coconut oil changes flavor profile";
                 flavorImpact := minimal |} ].
Proof. reflexivity. Qed.

(** With nothing matching in the pantry "tahini" falls back to its
    first-listed candidate. *)
Example tahini_empty_pantry :
  findIngredientSubstitutes {| authenticIngredients := ["tahini"] |} [] ""
  = Returns [ {| original := "tahini";
                 substitute := "smooth peanut butter";
                 notes := "Thin with sesame oil if available for closer flavor profile";
                 flavorImpact := minimal |} ].
Proof. reflexivity. Qed.

(** C4.  The specification promises that an input with no matchable
    ingredient yields the empty sequence, not an error.  "constructor"
    keys no rule of the table, yet the recipe made of it alone makes
    the call throw a TypeError (the defect of C5).
    ([findIngredientSubstitutes_originals] gives the order, the
    at-most-one and the length bound whenever the call returns.) *)
Theorem findIngredientSubstitutes_unmatched_throws :
  ~ In "constructor" (map fst getSubstitutionRules)
  /\ hasRule "constructor" = false
  /\ forall pantryItems userRegion,
       findIngredientSubstitutes
         {| authenticIngredients := ["constructor"] |} pantryItems userRegion
       = Throws TypeError.
Proof.
  split; [|split].
  - simpl. intros H.
    repeat (destruct H as [H|H]; [discriminate H|]). exact H.
  - reflexivity.
  - intros pantryItems userRegion.
    now rewrite findIngredientSubstitutes_spec.
Qed.

(** C5.  The specification promises that no operation ever raises an
    error.  [findIngredientSubstitutes] throws a TypeError on the
    ingredients "__proto__" and "Constructor" (any casing of
    "constructor"): the guard [if (rule)] lets the inherited member of
    [Object.prototype] through, where the two region lookups guard each
    field read with [|| []]. *)
Theorem findIngredientSubstitutes_not_total :
  forall pantryItems userRegion,
    findIngredientSubstitutes
      {| authenticIngredients := ["__proto__"] |} pantryItems userRegion
    = Throws TypeError
    /\ findIngredientSubstitutes
         {| authenticIngredients := ["Constructor"] |} pantryItems userRegion
       = Throws TypeError.
Proof.
  intros pantryItems userRegion.
  split; now rewrite findIngredientSubstitutes_spec.
Qed.

(** ** The region lookups *)

Lemma findComplementaryDishes_unknown recipe cuisine :
  ~ In (region cuisine) regionCodes ->
  findComplementaryDishes recipe cuisine = noPairings.
Proof.
  intros H. unfold findComplementaryDishes, getTraditionalPairings, getProperty.
  rewrite ownProperty_None by (now rewrite pairings_keys).
  now destruct (existsb _ objectPrototype).
Qed.

Lemma getServingEtiquetteGuide_unknown recipe region :
  ~ In region etiquetteRegionCodes ->
  getServingEtiquetteGuide recipe region = noEtiquette.
Proof.
  intros H. unfold getServingEtiquetteGuide, getRegionalEtiquette, getProperty.
  rewrite ownProperty_None by (now rewrite etiquette_keys).
  now destruct (existsb _ objectPrototype).
Qed.

(** C6.  The pairings table has exactly the ten region codes of the
    specification.  The lookup is an exact match on the code: the
    result is the table's own entry under that very string, and four
    empty lists when the table has none.  The ten codes yield the
    entries enumerated in the table, three dish names in each of the
    four categories; every other string (an unknown code such as
    "atlantis", another casing such as "East_Asia") yields four empty
    lists. *)
Theorem findComplementaryDishes_spec :
  map fst pairings = regionCodes
  /\ length regionCodes = 10%nat
  /\ (forall recipe cuisine,
        findComplementaryDishes recipe cuisine
        = match ownProperty pairings (region cuisine) with
          | Some entry => entry
          | None => noPairings
          end)
  /\ (forall recipe keyIngredients,
        map (fun code =>
               (code,
                findComplementaryDishes recipe
                  {| region := code; keyIngredients := keyIngredients |}))
            regionCodes
        =
      [ ("east_asia",
           {| mainDishes := ["Steamed Fish"; "Stir-fried Vegetables"; "Clay Pot Rice"];
              sideDishes := ["Pickled Vegetables"; "Cold Salad"; "Steamed Eggs"];
              desserts := ["Red Bean Soup"; "Mango Pudding"; "Egg Tarts"];
              beverages := ["Jasmine Tea"; "Oolong Tea"; "Rice Wine"] |});
          ("southeast_asia",
           {| mainDishes := ["Green Curry"; "Pad Thai"; "Beef Rendang"];
              sideDishes := ["Som Tam"; "Sticky Rice"; "Roti Canai"];
              desserts := ["Mango Sticky Rice"; "Thai Tea Ice Cream"; "Kuih"];
              beverages := ["Thai Iced Tea"; "Coconut Water"; "Sugarcane Juice"] |});
          ("south_asia",
           {| mainDishes := ["Butter Chicken"; "Biryani"; "Dal Makhani"];
              sideDishes := ["Naan"; "Raita"; "Chutney"];
              desserts := ["Gulab Jamun"; "Kheer"; "Jalebi"];
              beverages := ["Lassi"; "Masala Chai"; "Rooh Afza"] |});
          ("middle_east",
           {| mainDishes := ["Lamb Shawarma"; "Falafel"; "Kebabs"];
              sideDishes := ["Hummus"; "Tabbouleh"; "Baba Ganoush"];
              desserts := ["Baklava"; "Kunafa"; "Turkish Delight"];
              beverages := ["Mint Tea"; "Turkish Coffee"; "Ayran"] |});
          ("mediterranean",
           {| mainDishes := ["Paella"; "Moussaka"; "Risotto"];
              sideDishes := ["Greek Salad"; "Bruschetta"; "Dolmas"];
              desserts := ["Tiramisu"; "Baklava"; "Panna Cotta"];
              beverages := ["Wine"; "Limoncello"; "Ouzo"] |});
          ("latin_america",
           {| mainDishes := ["Tacos"; "Mole Poblano"; "Feijoada"];
              sideDishes := ["Guacamole"; "Elote"; "Black Beans"];
              desserts := ["Tres Leches Cake"; "Churros"; "Flan"];
              beverages := ["Horchata"; "Margarita"; "Agua Fresca"] |});
          ("caribbean",
           {| mainDishes := ["Jerk Chicken"; "Curry Goat"; "Ackee and Saltfish"];
              sideDishes := ["Rice and Peas"; "Festival"; "Plantains"];
              desserts := ["Rum Cake"; "Sweet Potato Pudding"; "Coconut Drops"];
              beverages := ["Rum Punch"; "Sorrel Drink"; "Ginger Beer"] |});
          ("west_africa",
           {| mainDishes := ["Jollof Rice"; "Egusi Soup"; "Peanut Stew"];
              sideDishes := ["Fufu"; "Fried Plantains"; "Moin Moin"];
              desserts := ["Chin Chin"; "Puff Puff"; "Coconut Candy"];
              beverages := ["Palm Wine"; "Bissap"; "Ginger Drink"] |});
          ("east_africa",
           {| mainDishes := ["Injera with Wat"; "Nyama Choma"; "Pilau Rice"];
              sideDishes := ["Chapati"; "Sukuma Wiki"; "Ugali"];
              desserts := ["Mandazi"; "Kashata"; "Maandazi"];
              beverages := ["Ethiopian Coffee"; "Tangawizi"; "Urwaga"] |});
          ("north_africa",
           {| mainDishes := ["Couscous"; "Tagine"; "Shakshuka"];
              sideDishes := ["Harissa"; "Zaalouk"; "Batbout"];
              desserts := ["Makroud"; "Msemen"; "Basbousa"];
              beverages := ["Mint Tea"; "Almond Milk"; "Hibiscus Tea"] |}) ])
  /\ (forall recipe cuisine,
        let result := findComplementaryDishes recipe cuisine in
        if in_dec string_dec (region cuisine) regionCodes
        then length (mainDishes result) = 3%nat
             /\ length (sideDishes result) = 3%nat
             /\ length (desserts result) = 3%nat
             /\ length (beverages result) = 3%nat
        else result = noPairings)
  /\ (forall recipe keyIngredients,
        findComplementaryDishes recipe
          {| region := "east_asia"; keyIngredients := keyIngredients |}
        = {| mainDishes := ["Steamed Fish"; "Stir-fried Vegetables"; "Clay Pot Rice"];
             sideDishes := ["Pickled Vegetables"; "Cold Salad"; "Steamed Eggs"];
             desserts := ["Red Bean Soup"; "Mango Pudding"; "Egg Tarts"];
             beverages := ["Jasmine Tea"; "Oolong Tea"; "Rice Wine"] |})
  /\ (forall recipe keyIngredients,
        findComplementaryDishes recipe
          {| region := "atlantis"; keyIngredients := keyIngredients |}
        = noPairings)
  /\ (forall recipe keyIngredients,
        findComplementaryDishes recipe
          {| region := "East_Asia"; keyIngredients := keyIngredients |}
        = noPairings).
Proof.
  split; [reflexivity|]. split; [reflexivity|].
  split.
  { intros recipe cuisine.
    unfold findComplementaryDishes, getTraditionalPairings, getProperty.
    destruct (ownProperty pairings (region cuisine)) as [[m s d b]|].
    - reflexivity.
    - now destruct (existsb _ objectPrototype). }
  split; [reflexivity|].
  split; [|repeat split].
  intros recipe [code keys] result. subst result. cbn [region].
  destruct (in_dec string_dec code regionCodes) as [Hin|Hout].
  - unfold regionCodes in Hin. simpl in Hin.
    repeat (destruct Hin as [<-|Hin]; [repeat split|]). contradiction.
  - now apply findComplementaryDishes_unknown.
Qed.

(** C7.  The etiquette table has its own keys, six of the ten region
    codes.  "west_africa" keys the pairings table and not the
    etiquette table, and yields four empty lists; so does every string
    outside the six codes.  Each of the six codes yields between 3 and
    6 strings in each of the four categories. *)
Theorem getServingEtiquetteGuide_spec :
  map fst etiquette = etiquetteRegionCodes
  /\ length etiquetteRegionCodes = 6%nat
  /\ In "west_africa" (map fst pairings)
  /\ ~ In "west_africa" (map fst etiquette)
  /\ (forall recipe,
        getServingEtiquetteGuide recipe "west_africa" = noEtiquette)
  /\ (forall recipe region,
        let result := getServingEtiquetteGuide recipe region in
        if in_dec string_dec region etiquetteRegionCodes
        then (3 <= length (presentation result) <= 6)%nat
             /\ (3 <= length (customs result) <= 6)%nat
             /\ (3 <= length (taboos result) <= 6)%nat
             /\ (3 <= length (servingOrder result) <= 6)%nat
        else result = noEtiquette).
Proof.
  split; [reflexivity|]. split; [reflexivity|].
  split; [simpl; tauto|].
  split.
  { simpl. intros H.
    repeat (destruct H as [H|H]; [discriminate H|]). exact H. }
  split; [reflexivity|].
  intros recipe code result. subst result.
  destruct (in_dec string_dec code etiquetteRegionCodes) as [Hin|Hout].
  - unfold etiquetteRegionCodes in Hin. simpl in Hin.
    repeat (destruct Hin as [<-|Hin]; [simpl; lia|]). contradiction.
  - now apply getServingEtiquetteGuide_unknown.
Qed.

(** ** Consistency with the table, and what the results depend on *)

(** An emitted substitution agrees with the rule keyed by its
    lowercased original. *)
Definition consistentWithTable (recipe : CulturalRecipe)
  (sub : IngredientSubstitution) : Prop :=
  In (original sub) (authenticIngredients recipe)
  /\ exists rule,
       ownProperty getSubstitutionRules (toLowerCase (original sub)) = Some rule
       /\ In (substitute sub) (Rule.substitutes rule)
       /\ notes sub = Rule.notes rule
       /\ flavorImpact sub = Rule.flavorImpact rule.

(** C8.  The originals of the returned list are the input ingredients
    that key a rule, verbatim with their casing, one entry per
    occurrence and in input order; in every returned entry the
    [substitute] is one of the candidates of the rule keyed by the
    lowercased original, and the [notes] and [flavorImpact] are that
    rule's. *)
Theorem findIngredientSubstitutes_consistent :
  forall recipe pantryItems userRegion out,
    findIngredientSubstitutes recipe pantryItems userRegion = Returns out ->
    map original out = filter hasRule (authenticIngredients recipe)
    /\ Forall (consistentWithTable recipe) out.
Proof.
  intros recipe pantryItems userRegion out.
  rewrite findIngredientSubstitutes_spec.
  destruct (forallb _ _); [|discriminate]. intros [= <-].
  split; [apply suggestion_originals|].
  apply Forall_forall. intros sub Hsub.
  apply in_flat_map in Hsub. destruct Hsub as [ingredient [Hin Hsub]].
  unfold suggestion in Hsub.
  destruct (ruleFor ingredient) as [rule|] eqn:Hrule; [|contradiction].
  destruct Hsub as [<-|[]]. split; [exact Hin|].
  exists rule. cbn [original substitute notes flavorImpact].
  repeat split; auto.
  apply chooseSubstitute_In. exact (ruleFor_wellFormed _ Hrule).
Qed.

Lemma findIngredientSubstitutes_consistent_witness :
  findIngredientSubstitutes
    {| authenticIngredients := ["Ghee"; "water"; "Fish Sauce"; "GHEE"] |}
    [ {| name := "Unsalted BUTTER" |} ] "south_asia"
  = Returns
      [ {| original := "Ghee"; substitute := "butter";
           notes := "Unsalted butter is your best alternative, coconut oil changes flavor profile";
           flavorImpact := minimal |};
        {| original := "Fish Sauce"; substitute := "soy sauce with salt";
           notes := "Add a pinch of salt and a drop of vinegar to better mimic umami flavor";
           flavorImpact := significant |};
        {| original := "GHEE"; substitute := "butter";
           notes := "Unsalted butter is your best alternative, coconut oil changes flavor profile";
           flavorImpact := minimal |} ]
  /\ map original
       [ {| original := "Ghee"; substitute := "butter";
           notes := "Unsalted butter is your best alternative, coconut oil changes flavor profile";
           flavorImpact := minimal |};
        {| original := "Fish Sauce"; substitute := "soy sauce with salt";
           notes := "Add a pinch of salt and a drop of vinegar to better mimic umami flavor";
           flavorImpact := significant |};
        {| original := "GHEE"; substitute := "butter";
           notes := "Unsalted butter is your best alternative, coconut oil changes flavor profile";
           flavorImpact := minimal |} ]
     = filter hasRule ["Ghee"; "water"; "Fish Sauce"; "GHEE"]
  /\ Forall
       (consistentWithTable
          {| authenticIngredients := ["Ghee"; "water"; "Fish Sauce"; "GHEE"] |})
       [ {| original := "Ghee"; substitute := "butter";
           notes := "Unsalted butter is your best alternative, coconut oil changes flavor profile";
           flavorImpact := minimal |};
        {| original := "Fish Sauce"; substitute := "soy sauce with salt";
           notes := "Add a pinch of salt and a drop of vinegar to better mimic umami flavor";
           flavorImpact := significant |};
        {| original := "GHEE"; substitute := "butter";
           notes := "Unsalted butter is your best alternative, coconut oil changes flavor profile";
           flavorImpact := minimal |} ].
Proof.
  split; [reflexivity|].
  apply (@findIngredientSubstitutes_consistent
           {| authenticIngredients := ["Ghee"; "water"; "Fish Sauce"; "GHEE"] |}
           [ {| name := "Unsalted BUTTER" |} ] "south_asia").
  reflexivity.
Defined.

(** C9.  The result of [findIngredientSubstitutes], returned list or
    thrown error, is the same for any two [userRegion] arguments. *)
Theorem findIngredientSubstitutes_ignores_userRegion :
  forall recipe pantryItems r1 r2,
    findIngredientSubstitutes recipe pantryItems r1
    = findIngredientSubstitutes recipe pantryItems r2.
Proof. reflexivity. Qed.

(** C10.  [findComplementaryDishes] gives the same result for any two
    recipes and any two cuisines of equal region, whatever their
    [keyIngredients]; [getServingEtiquetteGuide] gives the same result
    for any two recipes at one region; [analyzeAuthenticityScore] gives
    the same result for any two recipes at one list of substitutions. *)
Theorem lookups_depend_on_region_only :
  (forall recipe1 recipe2 cuisine1 cuisine2,
      region cuisine1 = region cuisine2 ->
      findComplementaryDishes recipe1 cuisine1
      = findComplementaryDishes recipe2 cuisine2)
  /\ (forall recipe1 recipe2 region,
        getServingEtiquetteGuide recipe1 region
        = getServingEtiquetteGuide recipe2 region)
  /\ (forall recipe1 recipe2 usedSubstitutions,
        analyzeAuthenticityScore recipe1 usedSubstitutions
        = analyzeAuthenticityScore recipe2 usedSubstitutions).
Proof.
  split; [|split].
  - intros recipe1 recipe2 cuisine1 cuisine2 H.
    unfold findComplementaryDishes. now rewrite H.
  - reflexivity.
  - reflexivity.
Qed.

Lemma lookups_depend_on_region_only_witness :
  region {| region := "caribbean"; keyIngredients := ["allspice"] |}
  = region {| region := "caribbean"; keyIngredients := ["thyme"; "rum"] |}
  /\ findComplementaryDishes
       {| authenticIngredients := ["plantains"] |}
       {| region := "caribbean"; keyIngredients := ["allspice"] |}
     = findComplementaryDishes
         {| authenticIngredients := ["ghee"; "paneer"] |}
         {| region := "caribbean"; keyIngredients := ["thyme"; "rum"] |}.
Proof.
  split; [reflexivity|].
  apply (proj1 lookups_depend_on_region_only). reflexivity.
Defined.

(** * Further properties of the service *)

From Stdlib Require Import Permutation.

(** ** Helpers *)

Lemma lowerUnit_idempotent (c : ascii) : lowerUnit (lowerUnit c) = lowerUnit c.
Proof. destruct c as [[] [] [] [] [] [] [] []]; reflexivity. Qed.

Lemma toLowerCase_idempotent (s : string) :
  toLowerCase (toLowerCase s) = toLowerCase s.
Proof.
  induction s as [|c s IH]; simpl; [reflexivity|].
  now rewrite lowerUnit_idempotent, IH.
Qed.

Lemma forallb_false_exists (A : Type) (f : A -> bool) (l : list A) :
  forallb f l = false -> exists x, In x l /\ f x = false.
Proof.
  induction l as [|a l IH]; simpl; [discriminate|].
  destruct (f a) eqn:E; simpl.
  - intros H. destruct (IH H) as [x [Hin Hx]]. exists x. auto.
  - intros _. exists a. auto.
Qed.

Lemma find_pointwise (A : Type) (f g : A -> bool) (l : list A) :
  (forall x, f x = g x) -> find f l = find g l.
Proof.
  intros H. induction l as [|a l IH]; simpl; [reflexivity|].
  now rewrite H, IH.
Qed.

Lemma ownProperty_NoDup (A : Type) (obj : list (string * A)) key v :
  NoDup (map fst obj) -> In (key, v) obj -> ownProperty obj key = Some v.
Proof.
  induction obj as [|[k w] obj IH]; simpl; [contradiction|].
  intros Hnd Hin. inversion Hnd as [|? ? Hk Hrest]; subst.
  destruct Hin as [[= -> ->] | Hin].
  - now rewrite String.eqb_refl.
  - destruct (String.eqb k key) eqn:E.
    + apply String.eqb_eq in E. subst k. exfalso. apply Hk.
      apply (in_map fst) in Hin. exact Hin.
    + auto.
Qed.

Lemma substitution_keys_NoDup : NoDup (map fst getSubstitutionRules).
Proof.
  simpl. repeat (constructor; [simpl; intuition discriminate|]). constructor.
Qed.

Lemma substitution_keys_lowercase :
  forallb (fun kv => String.eqb (toLowerCase (fst kv)) (fst kv))
          getSubstitutionRules = true.
Proof. vm_compute. reflexivity. Qed.

Lemma hasRule_not_shadowed ingredient :
  hasRule ingredient = true -> shadowsPrototype ingredient = false.
Proof.
  unfold hasRule. intros H.
  destruct (shadowsPrototype ingredient) eqn:E; [|reflexivity].
  now rewrite (shadowsPrototype_no_rule _ E) in H.
Qed.

Lemma suggestion_no_rule pantryItems ingredient :
  hasRule ingredient = false -> suggestion pantryItems ingredient = [].
Proof.
  unfold hasRule, suggestion. now destruct (ruleFor ingredient).
Qed.

(** Each entry of the suggestions comes from an input ingredient and
    the rule it keys. *)
Lemma in_suggestions pantryItems ingredients sub :
  In sub (flat_map (suggestion pantryItems) ingredients) ->
  exists ingredient rule,
    In ingredient ingredients
    /\ ruleFor ingredient = Some rule
    /\ sub = {| original := ingredient;
                substitute := chooseSubstitute rule pantryItems;
                notes := Rule.notes rule;
                flavorImpact := Rule.flavorImpact rule |}.
Proof.
  intros H. apply in_flat_map in H. destruct H as [ingredient [Hin H]].
  unfold suggestion in H.
  destruct (ruleFor ingredient) as [rule|] eqn:Hrule; [|contradiction].
  destruct H as [<-|[]]. now exists ingredient, rule.
Qed.

Lemma returned_suggestions recipe pantryItems userRegion out :
  findIngredientSubstitutes recipe pantryItems userRegion = Returns out ->
  forallb (fun i => negb (shadowsPrototype i)) (authenticIngredients recipe) = true
  /\ out = flat_map (suggestion pantryItems) (authenticIngredients recipe).
Proof.
  rewrite findIngredientSubstitutes_spec.
  destruct (forallb _ _); [|discriminate]. now intros [= <-].
Qed.

(** ** When the resolver throws, and how it composes *)

(** X1.  The call throws its TypeError exactly when some ingredient
    lowercases to "constructor" or "__proto__", and returns a list
    exactly when none does. *)
Theorem findIngredientSubstitutes_throws_iff :
  forall recipe pantryItems userRegion,
    (findIngredientSubstitutes recipe pantryItems userRegion = Throws TypeError
     <-> exists ingredient,
           In ingredient (authenticIngredients recipe)
           /\ (toLowerCase ingredient = "constructor"
               \/ toLowerCase ingredient = "__proto__"))
    /\ ((exists out,
            findIngredientSubstitutes recipe pantryItems userRegion = Returns out)
        <-> forall ingredient,
              In ingredient (authenticIngredients recipe) ->
              toLowerCase ingredient <> "constructor"
              /\ toLowerCase ingredient <> "__proto__").
Proof.
  intros recipe pantryItems userRegion.
  rewrite findIngredientSubstitutes_spec.
  destruct (forallb _ (authenticIngredients recipe)) eqn:E.
  - assert (Hsafe : forall i, In i (authenticIngredients recipe) ->
                              shadowsPrototype i = false).
    { intros i Hi. apply negb_true_iff.
      exact (proj1 (forallb_forall _ _) E i Hi). }
    split; split.
    + discriminate.
    + intros [i [Hi Hname]]. apply shadowsPrototype_iff in Hname.
      rewrite (Hsafe i Hi) in Hname. discriminate.
    + intros _ i Hi. specialize (Hsafe i Hi).
      split; intros Hname;
        assert (Hs : shadowsPrototype i = true)
          by (apply shadowsPrototype_iff; auto);
        congruence.
    + intros _. eexists. reflexivity.
  - apply forallb_false_exists in E. destruct E as [i [Hi Hs]].
    apply negb_false_iff in Hs.
    pose proof (proj1 (shadowsPrototype_iff i) Hs) as Hname.
    split; split.
    + intros _. now exists i.
    + reflexivity.
    + intros [out H]. discriminate.
    + intros H. exfalso. destruct (H i Hi) as [H1 H2].
      destruct Hname; contradiction.
Qed.

(** X2.  Resolving a recipe whose ingredient list is a concatenation is
    resolving the two parts in turn and concatenating the outputs; an
    error in either part is the error of the whole. *)
Theorem findIngredientSubstitutes_app :
  forall ingredients1 ingredients2 pantryItems userRegion,
    findIngredientSubstitutes
      {| authenticIngredients := (ingredients1 ++ ingredients2)%list |}
      pantryItems userRegion
    = (out1 <- findIngredientSubstitutes
                 {| authenticIngredients := ingredients1 |} pantryItems userRegion ;;
       out2 <- findIngredientSubstitutes
                 {| authenticIngredients := ingredients2 |} pantryItems userRegion ;;
       Returns (out1 ++ out2)%list).
Proof.
  intros ingredients1 ingredients2 pantryItems userRegion.
  rewrite !findIngredientSubstitutes_spec. cbn [authenticIngredients].
  rewrite forallb_app, flat_map_app.
  destruct (forallb _ ingredients1); simpl; [|reflexivity].
  destruct (forallb _ ingredients2); reflexivity.
Qed.

(** X3.  The originals of a returned list are the input ingredients
    that key a rule, in input order: the ingredients without a rule
    were the only ones dropped.  Resolving those originals again, with
    the same pantry, returns the same list. *)
Theorem findIngredientSubstitutes_originals_again :
  forall recipe pantryItems userRegion out,
    findIngredientSubstitutes recipe pantryItems userRegion = Returns out ->
    map original out = filter hasRule (authenticIngredients recipe)
    /\ findIngredientSubstitutes
         {| authenticIngredients := map original out |} pantryItems userRegion
       = Returns out.
Proof.
  intros recipe pantryItems userRegion out H.
  apply returned_suggestions in H. destruct H as [_ ->].
  split; [apply suggestion_originals|].
  rewrite findIngredientSubstitutes_spec. cbn [authenticIngredients].
  rewrite suggestion_originals.
  induction (authenticIngredients recipe) as [|i rest IH]; [reflexivity|].
  cbn [filter flat_map]. destruct (hasRule i) eqn:Hi.
  - cbn [forallb flat_map]. rewrite (hasRule_not_shadowed _ Hi). cbn [negb andb].
    destruct (forallb _ (filter hasRule rest)); [|discriminate IH].
    injection IH as IH. now rewrite IH.
  - now rewrite (suggestion_no_rule pantryItems _ Hi).
Qed.

Lemma findIngredientSubstitutes_originals_again_witness :
  findIngredientSubstitutes
    {| authenticIngredients := ["Ghee"; "water"; "Fish Sauce"] |}
    [ {| name := "Unsalted BUTTER" |} ] ""
  = Returns
      [ {| original := "Ghee"; substitute := "butter";
           notes := "Unsalted butter is your best alternative, coconut oil changes flavor profile";
           flavorImpact := minimal |};
        {| original := "Fish Sauce"; substitute := "soy sauce with salt";
           notes := "Add a pinch of salt and a drop of vinegar to better mimic umami flavor";
           flavorImpact := significant |} ]
  /\ ["Ghee"; "Fish Sauce"] = filter hasRule ["Ghee"; "water"; "Fish Sauce"]
  /\ findIngredientSubstitutes
       {| authenticIngredients := ["Ghee"; "Fish Sauce"] |}
       [ {| name := "Unsalted BUTTER" |} ] ""
     = Returns
         [ {| original := "Ghee"; substitute := "butter";
              notes := "Unsalted butter is your best alternative, coconut oil changes flavor profile";
              flavorImpact := minimal |};
           {| original := "Fish Sauce"; substitute := "soy sauce with salt";
              notes := "Add a pinch of salt and a drop of vinegar to better mimic umami flavor";
              flavorImpact := significant |} ].
Proof.
  split; [reflexivity|].
  apply (@findIngredientSubstitutes_originals_again
           {| authenticIngredients := ["Ghee"; "water"; "Fish Sauce"] |}
           [ {| name := "Unsalted BUTTER" |} ] ""
           [ {| original := "Ghee"; substitute := "butter";
                notes := "Unsalted butter is your best alternative, coconut oil changes flavor profile";
                flavorImpact := minimal |};
             {| original := "Fish Sauce"; substitute := "soy sauce with salt";
                notes := "Add a pinch of salt and a drop of vinegar to better mimic umami flavor";
                flavorImpact := significant |} ]).
  reflexivity.
Defined.

(** ** What the pantry and the casing can change *)

Lemma inPantry_same_names pantry1 pantry2 sub :
  (forall s, In s (map (fun item => toLowerCase (name item)) pantry1)
             <-> In s (map (fun item => toLowerCase (name item)) pantry2)) ->
  inPantry pantry1 sub = inPantry pantry2 sub.
Proof.
  intros H.
  assert (Hmatch : forall p q,
             (forall s, In s (map (fun item => toLowerCase (name item)) p)
                        -> In s (map (fun item => toLowerCase (name item)) q)) ->
             inPantry p sub = true -> inPantry q sub = true).
  { intros p q Hpq Hp. unfold inPantry in *.
    apply existsb_exists in Hp. destruct Hp as [item [Hin Hinc]].
    assert (Hq : In (toLowerCase (name item))
                    (map (fun item => toLowerCase (name item)) q)).
    { apply Hpq. apply in_map_iff. now exists item. }
    apply in_map_iff in Hq. destruct Hq as [item' [Heq Hin']].
    apply existsb_exists. exists item'. split; [exact Hin'|].
    now rewrite Heq. }
  destruct (inPantry pantry1 sub) eqn:E1, (inPantry pantry2 sub) eqn:E2;
    try reflexivity.
  - rewrite (Hmatch pantry1 pantry2) in E2; [discriminate| |exact E1].
    intros s. apply H.
  - rewrite (Hmatch pantry2 pantry1) in E1; [discriminate| |exact E2].
    intros s. apply H.
Qed.

(** X4.  Only the set of lowercased pantry names matters: the order of the
    pantry, repeated items and the casing of the names change nothing
    in the result. *)
Theorem findIngredientSubstitutes_pantry_names :
  forall recipe pantry1 pantry2 userRegion,
    (forall s, In s (map (fun item => toLowerCase (name item)) pantry1)
               <-> In s (map (fun item => toLowerCase (name item)) pantry2)) ->
    findIngredientSubstitutes recipe pantry1 userRegion
    = findIngredientSubstitutes recipe pantry2 userRegion.
Proof.
  intros recipe pantry1 pantry2 userRegion H.
  rewrite !findIngredientSubstitutes_spec.
  destruct (forallb _ _); [|reflexivity]. f_equal.
  apply flat_map_ext. intros ingredient. unfold suggestion.
  destruct (ruleFor ingredient) as [rule|]; [|reflexivity].
  unfold chooseSubstitute.
  rewrite (find_pointwise (inPantry pantry1) (inPantry pantry2));
    [reflexivity|].
  intros sub. now apply inPantry_same_names.
Qed.

Lemma findIngredientSubstitutes_pantry_names_witness :
  (forall s,
      In s (map (fun item => toLowerCase (name item))
                [ {| name := "Unsalted BUTTER" |}; {| name := "Tamarind" |} ])
      <-> In s (map (fun item => toLowerCase (name item))
                    [ {| name := "tamarind" |}; {| name := "unsalted butter" |};
                      {| name := "TAMARIND" |} ]))
  /\ findIngredientSubstitutes
       {| authenticIngredients := ["Ghee"; "Sumac"] |}
       [ {| name := "Unsalted BUTTER" |}; {| name := "Tamarind" |} ] ""
     = findIngredientSubstitutes
         {| authenticIngredients := ["Ghee"; "Sumac"] |}
         [ {| name := "tamarind" |}; {| name := "unsalted butter" |};
           {| name := "TAMARIND" |} ] "".
Proof.
  assert (H : forall s,
      In s (map (fun item => toLowerCase (name item))
                [ {| name := "Unsalted BUTTER" |}; {| name := "Tamarind" |} ])
      <-> In s (map (fun item => toLowerCase (name item))
                    [ {| name := "tamarind" |}; {| name := "unsalted butter" |};
                      {| name := "TAMARIND" |} ])).
  { intros s. vm_compute. tauto. }
  split; [exact H|].
  apply (@findIngredientSubstitutes_pantry_names
           {| authenticIngredients := ["Ghee"; "Sumac"] |}
           [ {| name := "Unsalted BUTTER" |}; {| name := "Tamarind" |} ]
           [ {| name := "tamarind" |}; {| name := "unsalted butter" |};
             {| name := "TAMARIND" |} ] "").
  exact H.
Defined.

(** X5.  Two ingredient lists that agree after lowercasing are resolved
    alike: both calls throw, or both return lists that agree on
    substitute, notes and flavor impact, entry by entry; only the
    [original] fields keep the casing of their input. *)
Theorem findIngredientSubstitutes_ingredient_casing :
  forall ingredients1 ingredients2 pantryItems userRegion,
    map toLowerCase ingredients1 = map toLowerCase ingredients2 ->
    (findIngredientSubstitutes {| authenticIngredients := ingredients1 |}
       pantryItems userRegion = Throws TypeError
     /\ findIngredientSubstitutes {| authenticIngredients := ingredients2 |}
          pantryItems userRegion = Throws TypeError)
    \/ exists out1 out2,
         findIngredientSubstitutes {| authenticIngredients := ingredients1 |}
           pantryItems userRegion = Returns out1
         /\ findIngredientSubstitutes {| authenticIngredients := ingredients2 |}
              pantryItems userRegion = Returns out2
         /\ map original out1 = filter hasRule ingredients1
         /\ map original out2 = filter hasRule ingredients2
         /\ map (fun sub => (substitute sub, notes sub, flavorImpact sub)) out1
            = map (fun sub => (substitute sub, notes sub, flavorImpact sub)) out2.
Proof.
  intros ingredients1 ingredients2 pantryItems userRegion H.
  rewrite !findIngredientSubstitutes_spec. cbn [authenticIngredients].
  assert (Hsafe : forallb (fun i => negb (shadowsPrototype i)) ingredients1
                  = forallb (fun i => negb (shadowsPrototype i)) ingredients2).
  { revert ingredients2 H.
    induction ingredients1 as [|i1 l1 IH]; intros [|i2 l2] H;
      try discriminate; [reflexivity|].
    simpl in H. injection H as Hi Hl. simpl.
    unfold shadowsPrototype at 1 3. rewrite Hi. f_equal. auto. }
  rewrite <- Hsafe.
  destruct (forallb _ ingredients1); [right|now left].
  do 2 eexists. split; [reflexivity|]. split; [reflexivity|].
  split; [apply suggestion_originals|]. split; [apply suggestion_originals|].
  clear Hsafe. revert ingredients2 H.
  induction ingredients1 as [|i1 l1 IH]; intros [|i2 l2] H;
    try discriminate; [reflexivity|].
  simpl in H. injection H as Hi Hl. cbn [flat_map].
  rewrite !map_app, (IH _ Hl). f_equal.
  unfold suggestion, ruleFor. rewrite Hi.
  now destruct (ownProperty getSubstitutionRules (toLowerCase i2)).
Qed.

Lemma findIngredientSubstitutes_ingredient_casing_witness :
  map toLowerCase ["GHEE"; "Water"; "fish SAUCE"]
  = map toLowerCase ["ghee"; "water"; "Fish Sauce"]
  /\ ((findIngredientSubstitutes
         {| authenticIngredients := ["GHEE"; "Water"; "fish SAUCE"] |}
         [ {| name := "Butter" |} ] "" = Throws TypeError
       /\ findIngredientSubstitutes
            {| authenticIngredients := ["ghee"; "water"; "Fish Sauce"] |}
            [ {| name := "Butter" |} ] "" = Throws TypeError)
      \/ exists out1 out2,
           findIngredientSubstitutes
             {| authenticIngredients := ["GHEE"; "Water"; "fish SAUCE"] |}
             [ {| name := "Butter" |} ] "" = Returns out1
           /\ findIngredientSubstitutes
                {| authenticIngredients := ["ghee"; "water"; "Fish Sauce"] |}
                [ {| name := "Butter" |} ] "" = Returns out2
           /\ map original out1 = filter hasRule ["GHEE"; "Water"; "fish SAUCE"]
           /\ map original out2 = filter hasRule ["ghee"; "water"; "Fish Sauce"]
           /\ map (fun sub => (substitute sub, notes sub, flavorImpact sub)) out1
              = map (fun sub => (substitute sub, notes sub, flavorImpact sub)) out2).
Proof.
  split; [reflexivity|].
  apply (@findIngredientSubstitutes_ingredient_casing
           ["GHEE"; "Water"; "fish SAUCE"] ["ghee"; "water"; "Fish Sauce"]
           [ {| name := "Butter" |} ] "").
  reflexivity.
Defined.

(** X6.  The pantry can change nothing but the [substitute] fields: whether
    the call throws, and the originals, notes and flavor impacts of the
    returned entries, are the same for any two pantries; so is the
    authenticity score of the returned list. *)
Theorem findIngredientSubstitutes_pantry_changes_substitute_only :
  forall recipe pantry1 pantry2 userRegion,
    (findIngredientSubstitutes recipe pantry1 userRegion = Throws TypeError
     /\ findIngredientSubstitutes recipe pantry2 userRegion = Throws TypeError)
    \/ exists out1 out2,
         findIngredientSubstitutes recipe pantry1 userRegion = Returns out1
         /\ findIngredientSubstitutes recipe pantry2 userRegion = Returns out2
         /\ map (fun sub => (original sub, notes sub, flavorImpact sub)) out1
            = map (fun sub => (original sub, notes sub, flavorImpact sub)) out2
         /\ score (analyzeAuthenticityScore recipe out1)
            = score (analyzeAuthenticityScore recipe out2).
Proof.
  intros recipe pantry1 pantry2 userRegion.
  rewrite !findIngredientSubstitutes_spec.
  destruct (forallb _ _); [right|now left].
  do 2 eexists. split; [reflexivity|]. split; [reflexivity|].
  assert (Hfields :
    forall f : IngredientSubstitution -> string * string * FlavorImpact,
      (forall o s1 s2 n i,
          f {| original := o; substitute := s1; notes := n; flavorImpact := i |}
          = f {| original := o; substitute := s2; notes := n; flavorImpact := i |}) ->
      map f (flat_map (suggestion pantry1) (authenticIngredients recipe))
      = map f (flat_map (suggestion pantry2) (authenticIngredients recipe))).
  { intros f Hf.
    induction (authenticIngredients recipe) as [|i rest IH]; [reflexivity|].
    cbn [flat_map]. rewrite !map_app, IH. f_equal.
    unfold suggestion. destruct (ruleFor i); [|reflexivity].
    simpl. f_equal. apply Hf. }
  split.
  - apply Hfields. reflexivity.
  - unfold analyzeAuthenticityScore.
    rewrite !scoreSubstitution_fold. cbn [score]. unfold countImpact.
    assert (Himpacts :
      map flavorImpact (flat_map (suggestion pantry1) (authenticIngredients recipe))
      = map flavorImpact (flat_map (suggestion pantry2) (authenticIngredients recipe))).
    { pose proof (Hfields (fun sub => (original sub, notes sub, flavorImpact sub))
                          (fun _ _ _ _ _ => eq_refl)) as H.
      apply (f_equal (map snd)) in H. rewrite !map_map in H. exact H. }
    now rewrite Himpacts.
Qed.

(** ** Which candidate comes back *)

Lemma find_never (A : Type) (f : A -> bool) (l : list A) :
  (forall x, f x = false) -> find f l = None.
Proof.
  intros H. induction l as [|a l IH]; simpl; [reflexivity|]. now rewrite H.
Qed.

(** X7.  With an empty pantry every returned entry carries the first-listed
    candidate of its rule. *)
Theorem findIngredientSubstitutes_empty_pantry :
  forall recipe userRegion out,
    findIngredientSubstitutes recipe [] userRegion = Returns out ->
    Forall (fun sub =>
              exists rule later,
                ruleFor (original sub) = Some rule
                /\ Rule.substitutes rule = substitute sub :: later)
           out.
Proof.
  intros recipe userRegion out H.
  apply returned_suggestions in H. destruct H as [_ ->].
  apply Forall_forall. intros sub Hsub.
  apply in_suggestions in Hsub.
  destruct Hsub as [ingredient [rule [_ [Hrule ->]]]].
  cbn [original substitute].
  destruct (substitutes_nonempty rule (ruleFor_wellFormed _ Hrule))
    as [first [later Heq]].
  exists rule, later. split; [exact Hrule|].
  unfold chooseSubstitute. rewrite find_never by reflexivity.
  unfold firstSubstitute. now rewrite Heq.
Qed.

Lemma findIngredientSubstitutes_empty_pantry_witness :
  findIngredientSubstitutes
    {| authenticIngredients := ["Paneer"; "rice"; "sumac"] |} [] ""
  = Returns
      [ {| original := "Paneer"; substitute := "firm tofu";
           notes := "Drain tofu well and press before using";
           flavorImpact := moderate |};
        {| original := "sumac"; substitute := "lemon zest";
           notes := "Add a touch of salt to lemon zest for similar tanginess";
           flavorImpact := moderate |} ]
  /\ Forall (fun sub =>
               exists rule later,
                 ruleFor (original sub) = Some rule
                 /\ Rule.substitutes rule = substitute sub :: later)
       [ {| original := "Paneer"; substitute := "firm tofu";
            notes := "Drain tofu well and press before using";
            flavorImpact := moderate |};
         {| original := "sumac"; substitute := "lemon zest";
            notes := "Add a touch of salt to lemon zest for similar tanginess";
            flavorImpact := moderate |} ].
Proof.
  split; [reflexivity|].
  apply (@findIngredientSubstitutes_empty_pantry
           {| authenticIngredients := ["Paneer"; "rice"; "sumac"] |} "").
  reflexivity.
Defined.

(** X8.  Every returned substitute is one of its rule's candidates:
    the first-listed one, or one that some pantry name contains.  The
    first-listed candidate is never displaced when a pantry name
    contains it. *)
Theorem findIngredientSubstitutes_default_or_matched :
  forall recipe pantryItems userRegion out,
    findIngredientSubstitutes recipe pantryItems userRegion = Returns out ->
    Forall (fun sub =>
              exists rule first later,
                ruleFor (original sub) = Some rule
                /\ Rule.substitutes rule = first :: later
                /\ In (substitute sub) (Rule.substitutes rule)
                /\ (substitute sub = first
                    \/ matchedInPantry pantryItems (substitute sub))
                /\ (matchedInPantry pantryItems first -> substitute sub = first))
           out.
Proof.
  intros recipe pantryItems userRegion out H.
  apply returned_suggestions in H. destruct H as [_ ->].
  apply Forall_forall. intros sub Hsub.
  apply in_suggestions in Hsub.
  destruct Hsub as [ingredient [rule [_ [Hrule ->]]]].
  cbn [original substitute].
  pose proof (ruleFor_wellFormed _ Hrule) as Hwf.
  destruct (substitutes_nonempty rule Hwf) as [first [later Heq]].
  exists rule, first, later. split; [exact Hrule|]. split; [exact Heq|].
  split; [now apply chooseSubstitute_In|].
  destruct (chooseSubstitute_selected pantryItems rule Hwf)
    as [[earlier [later' [Hsplit [Hmatched Hearlier]]]] | [Hnone [later' Hfirst]]].
  - split; [now right|]. intros Hfirst.
    rewrite Heq in Hsplit. destruct earlier as [|e earlier].
    + simpl in Hsplit. now injection Hsplit.
    + simpl in Hsplit. injection Hsplit as <- _.
      exfalso. apply (Hearlier first); [now left | exact Hfirst].
  - rewrite Heq in Hfirst. injection Hfirst as Hfirst _.
    split; [now left|]. intros _. now symmetry.
Qed.

Lemma findIngredientSubstitutes_default_or_matched_witness :
  findIngredientSubstitutes
    {| authenticIngredients := ["ghee"; "tahini"] |}
    [ {| name := "Coconut Oil (virgin)" |} ] ""
  = Returns
      [ {| original := "ghee"; substitute := "coconut oil";
           notes := "Unsalted butter is your best alternative, coconut oil changes flavor profile";
           flavorImpact := minimal |};
        {| original := "tahini"; substitute := "smooth peanut butter";
           notes := "Thin with sesame oil if available for closer flavor profile";
           flavorImpact := minimal |} ]
  /\ Forall (fun sub =>
               exists rule first later,
                 ruleFor (original sub) = Some rule
                 /\ Rule.substitutes rule = first :: later
                 /\ In (substitute sub) (Rule.substitutes rule)
                 /\ (substitute sub = first
                     \/ matchedInPantry [ {| name := "Coconut Oil (virgin)" |} ]
                                        (substitute sub))
                 /\ (matchedInPantry [ {| name := "Coconut Oil (virgin)" |} ] first
                     -> substitute sub = first))
       [ {| original := "ghee"; substitute := "coconut oil";
            notes := "Unsalted butter is your best alternative, coconut oil changes flavor profile";
            flavorImpact := minimal |};
         {| original := "tahini"; substitute := "smooth peanut butter";
            notes := "Thin with sesame oil if available for closer flavor profile";
            flavorImpact := minimal |} ].
Proof.
  split; [reflexivity|].
  apply (@findIngredientSubstitutes_default_or_matched
           {| authenticIngredients := ["ghee"; "tahini"] |}
           [ {| name := "Coconut Oil (virgin)" |} ] "").
  reflexivity.
Defined.

(** X9.  Every rule of the table can be triggered, by any casing of its
    key: the keys are lowercase, pairwise distinct and none is hidden,
    so an ingredient that lowercases to a key gets exactly one entry,
    with that rule's notes and flavor impact and one of its
    candidates. *)
Theorem every_rule_reachable :
  forall key rule ingredient pantryItems userRegion,
    In (key, rule) getSubstitutionRules ->
    toLowerCase ingredient = key ->
    toLowerCase key = key
    /\ exists sub,
         In sub (Rule.substitutes rule)
         /\ findIngredientSubstitutes
              {| authenticIngredients := [ingredient] |} pantryItems userRegion
            = Returns [ {| original := ingredient;
                           substitute := sub;
                           notes := Rule.notes rule;
                           flavorImpact := Rule.flavorImpact rule |} ].
Proof.
  intros key rule ingredient pantryItems userRegion Hin Hkey.
  split.
  - apply String.eqb_eq.
    exact (proj1 (forallb_forall _ _) substitution_keys_lowercase _ Hin).
  - assert (Hrule : ruleFor ingredient = Some rule).
    { unfold ruleFor. rewrite Hkey.
      exact (@ownProperty_NoDup _ _ _ _ substitution_keys_NoDup Hin). }
    exists (chooseSubstitute rule pantryItems). split.
    + apply chooseSubstitute_In. exact (ruleFor_wellFormed _ Hrule).
    + rewrite findIngredientSubstitutes_spec. cbn [authenticIngredients forallb].
      assert (Hh : hasRule ingredient = true) by (unfold hasRule; now rewrite Hrule).
      rewrite (hasRule_not_shadowed _ Hh). cbn [negb andb flat_map].
      unfold suggestion. now rewrite Hrule.
Qed.

Lemma every_rule_reachable_witness :
  In ("za'atar",
      {| Rule.substitutes := ["thyme with sesame seeds and sumac"; "thyme with lemon zest"];
         Rule.notes := "Mix 1 tbsp thyme, 1 tsp sesame seeds, pinch of salt and lemon zest";
         Rule.flavorImpact := moderate |})
     getSubstitutionRules
  /\ toLowerCase "ZA'ATAR" = "za'atar"
  /\ toLowerCase "za'atar" = "za'atar"
  /\ exists sub,
       In sub ["thyme with sesame seeds and sumac"; "thyme with lemon zest"]
       /\ findIngredientSubstitutes
            {| authenticIngredients := ["ZA'ATAR"] |} [] ""
          = Returns [ {| original := "ZA'ATAR";
                         substitute := sub;
                         notes := "Mix 1 tbsp thyme, 1 tsp sesame seeds, pinch of salt and lemon zest";
                         flavorImpact := moderate |} ].
Proof.
  assert (Hin :
    In ("za'atar",
        {| Rule.substitutes := ["thyme with sesame seeds and sumac"; "thyme with lemon zest"];
           Rule.notes := "Mix 1 tbsp thyme, 1 tsp sesame seeds, pinch of salt and lemon zest";
           Rule.flavorImpact := moderate |})
       getSubstitutionRules).
  { unfold getSubstitutionRules. do 12 right. left. reflexivity. }
  split; [exact Hin|]. split; [reflexivity|].
  exact (@every_rule_reachable _ _ "ZA'ATAR" [] "" Hin eq_refl).
Defined.

(** ** The scorer's range and algebra *)

Lemma analyzeAuthenticityScore_closed recipe subs :
  analyzeAuthenticityScore recipe subs
  = {| score := Z.max 0 (100 - 5 * countImpact minimal subs
                             - 10 * countImpact moderate subs
                             - 20 * countImpact significant subs);
       feedback := map feedbackFor subs |}.
Proof.
  unfold analyzeAuthenticityScore. now rewrite scoreSubstitution_fold.
Qed.

Lemma countImpact_total subs :
  (countImpact minimal subs + countImpact moderate subs
   + countImpact significant subs)%Z
  = Z.of_nat (length subs).
Proof.
  unfold countImpact. induction subs as [|sub subs IH]; [reflexivity|].
  cbn [map count_occ length].
  destruct (flavorImpact sub);
    repeat match goal with
           | |- context [FlavorImpact_eq_dec ?a ?b] =>
               destruct (FlavorImpact_eq_dec a b); try discriminate;
               try contradiction
           end; lia.
Qed.

Lemma countImpact_nonneg impact subs : (0 <= countImpact impact subs)%Z.
Proof. unfold countImpact. lia. Qed.

Lemma countImpact_app impact subs1 subs2 :
  countImpact impact (subs1 ++ subs2)
  = (countImpact impact subs1 + countImpact impact subs2)%Z.
Proof.
  unfold countImpact. rewrite map_app, count_occ_app. lia.
Qed.

(** X10.  With n substitutions the score lies between max(0, 100 - 20n) and
    max(0, 100 - 5n); it never exceeds 100, and it is 100 only for the
    empty list. *)
Theorem analyzeAuthenticityScore_range :
  forall recipe usedSubstitutions,
    let n := Z.of_nat (length usedSubstitutions) in
    let s := score (analyzeAuthenticityScore recipe usedSubstitutions) in
    (Z.max 0 (100 - 20 * n) <= s <= Z.max 0 (100 - 5 * n))%Z
    /\ (s <= 100)%Z
    /\ (s = 100%Z <-> usedSubstitutions = []).
Proof.
  intros recipe subs n s. subst n s.
  rewrite analyzeAuthenticityScore_closed. cbn [score].
  pose proof (countImpact_total subs) as Htotal.
  pose proof (countImpact_nonneg minimal subs).
  pose proof (countImpact_nonneg moderate subs).
  pose proof (countImpact_nonneg significant subs).
  split; [lia|]. split; [lia|]. split.
  - intros Hs. destruct subs as [|sub subs]; [reflexivity|].
    cbn [length] in Htotal. lia.
  - intros ->. reflexivity.
Qed.

(** X11.  Twenty substitutions of any classes, or five significant ones,
    bring the score to exactly 0. *)
Theorem analyzeAuthenticityScore_saturates :
  forall recipe usedSubstitutions,
    (20 <= length usedSubstitutions)%nat
    \/ (5 <= countImpact significant usedSubstitutions)%Z ->
    score (analyzeAuthenticityScore recipe usedSubstitutions) = 0%Z.
Proof.
  intros recipe subs H.
  rewrite analyzeAuthenticityScore_closed. cbn [score].
  pose proof (countImpact_total subs) as Htotal.
  pose proof (countImpact_nonneg minimal subs).
  pose proof (countImpact_nonneg moderate subs).
  pose proof (countImpact_nonneg significant subs).
  lia.
Qed.

Lemma analyzeAuthenticityScore_saturates_witness :
  ((20 <= length (repeat {| original := "fish sauce";
                            substitute := "soy sauce with salt";
                            notes := "";
                            flavorImpact := significant |} 5))%nat
   \/ (5 <= countImpact significant
              (repeat {| original := "fish sauce";
                         substitute := "soy sauce with salt";
                         notes := "";
                         flavorImpact := significant |} 5))%Z)
  /\ score (analyzeAuthenticityScore
              {| authenticIngredients := [] |}
              (repeat {| original := "fish sauce";
                         substitute := "soy sauce with salt";
                         notes := "";
                         flavorImpact := significant |} 5))
     = 0%Z.
Proof.
  assert (H : (5 <= countImpact significant
                     (repeat {| original := "fish sauce";
                                substitute := "soy sauce with salt";
                                notes := "";
                                flavorImpact := significant |} 5))%Z).
  { vm_compute. discriminate. }
  split; [right; exact H|].
  apply (@analyzeAuthenticityScore_saturates {| authenticIngredients := [] |}).
  right. exact H.
Defined.

(** X12.  Scoring a concatenation: the feedback is the concatenation of the
    two feedbacks, and the score is at most the score of either part;
    further substitutions never raise it. *)
Theorem analyzeAuthenticityScore_app :
  forall recipe subs1 subs2,
    feedback (analyzeAuthenticityScore recipe (subs1 ++ subs2))
    = (feedback (analyzeAuthenticityScore recipe subs1)
       ++ feedback (analyzeAuthenticityScore recipe subs2))%list
    /\ (score (analyzeAuthenticityScore recipe (subs1 ++ subs2))
        <= score (analyzeAuthenticityScore recipe subs1))%Z
    /\ (score (analyzeAuthenticityScore recipe (subs1 ++ subs2))
        <= score (analyzeAuthenticityScore recipe subs2))%Z.
Proof.
  intros recipe subs1 subs2.
  rewrite !analyzeAuthenticityScore_closed. cbn [score feedback].
  rewrite !countImpact_app.
  pose proof (countImpact_nonneg minimal subs1).
  pose proof (countImpact_nonneg moderate subs1).
  pose proof (countImpact_nonneg significant subs1).
  pose proof (countImpact_nonneg minimal subs2).
  pose proof (countImpact_nonneg moderate subs2).
  pose proof (countImpact_nonneg significant subs2).
  split; [apply map_app|]. split; lia.
Qed.

(** X13.  The score does not depend on the order of the substitutions, and
    reordering them only reorders the feedback. *)
Theorem analyzeAuthenticityScore_permutation :
  forall recipe subs1 subs2,
    Permutation subs1 subs2 ->
    score (analyzeAuthenticityScore recipe subs1)
    = score (analyzeAuthenticityScore recipe subs2)
    /\ Permutation (feedback (analyzeAuthenticityScore recipe subs1))
                   (feedback (analyzeAuthenticityScore recipe subs2)).
Proof.
  intros recipe subs1 subs2 H.
  rewrite !analyzeAuthenticityScore_closed. cbn [score feedback].
  split; [|now apply Permutation_map].
  assert (Hcount : forall impact,
             countImpact impact subs1 = countImpact impact subs2).
  { intros impact. unfold countImpact. f_equal.
    apply (Permutation_count_occ FlavorImpact_eq_dec).
    now apply Permutation_map. }
  now rewrite !Hcount.
Qed.

Lemma analyzeAuthenticityScore_permutation_witness :
  Permutation
    [ {| original := "ghee"; substitute := "butter"; notes := "";
         flavorImpact := minimal |};
      {| original := "miso paste"; substitute := "vegetable bouillon"; notes := "";
         flavorImpact := significant |} ]
    [ {| original := "miso paste"; substitute := "vegetable bouillon"; notes := "";
         flavorImpact := significant |};
      {| original := "ghee"; substitute := "butter"; notes := "";
         flavorImpact := minimal |} ]
  /\ score (analyzeAuthenticityScore {| authenticIngredients := [] |}
              [ {| original := "ghee"; substitute := "butter"; notes := "";
                   flavorImpact := minimal |};
                {| original := "miso paste"; substitute := "vegetable bouillon";
                   notes := ""; flavorImpact := significant |} ])
     = score (analyzeAuthenticityScore {| authenticIngredients := [] |}
                [ {| original := "miso paste"; substitute := "vegetable bouillon";
                     notes := ""; flavorImpact := significant |};
                  {| original := "ghee"; substitute := "butter"; notes := "";
                     flavorImpact := minimal |} ]).
Proof.
  split; [apply perm_swap|].
  apply (@analyzeAuthenticityScore_permutation {| authenticIngredients := [] |}).
  apply perm_swap.
Defined.

(** ** The two region tables together *)

(** X14.  A region with an etiquette guide also has pairings: whenever the
    etiquette lookup returns anything, the pairings lookup for the same
    region returns three dishes in each category. *)
Theorem etiquette_regions_have_pairings :
  forall recipe1 recipe2 cuisine,
    getServingEtiquetteGuide recipe1 (region cuisine) <> noEtiquette ->
    let result := findComplementaryDishes recipe2 cuisine in
    length (mainDishes result) = 3%nat
    /\ length (sideDishes result) = 3%nat
    /\ length (desserts result) = 3%nat
    /\ length (beverages result) = 3%nat.
Proof.
  intros recipe1 recipe2 [code keys] H result. subst result.
  cbn [region] in H.
  destruct (in_dec string_dec code etiquetteRegionCodes) as [Hin|Hout].
  - unfold etiquetteRegionCodes in Hin. simpl in Hin.
    repeat (destruct Hin as [<-|Hin]; [repeat split|]). contradiction.
  - exfalso. apply H. now apply getServingEtiquetteGuide_unknown.
Qed.

Lemma etiquette_regions_have_pairings_witness :
  getServingEtiquetteGuide {| authenticIngredients := [] |}
    (region {| region := "mediterranean"; keyIngredients := ["olive oil"] |})
  <> noEtiquette
  /\ length (mainDishes
               (findComplementaryDishes {| authenticIngredients := ["sumac"] |}
                  {| region := "mediterranean"; keyIngredients := ["olive oil"] |}))
     = 3%nat.
Proof.
  assert (H : getServingEtiquetteGuide {| authenticIngredients := [] |}
                (region {| region := "mediterranean";
                           keyIngredients := ["olive oil"] |})
              <> noEtiquette).
  { vm_compute. discriminate. }
  split; [exact H|].
  exact (proj1 (@etiquette_regions_have_pairings
                  {| authenticIngredients := [] |}
                  {| authenticIngredients := ["sumac"] |}
                  {| region := "mediterranean"; keyIngredients := ["olive oil"] |}
                  H)).
Defined.

(** ** Resolver and scorer in sequence *)

(** X15.  Scoring what the resolver returned gives one feedback line per
    input ingredient that keys a rule, each naming that ingredient
    verbatim, and a score no lower than max(0, 100 - 20n) for a recipe
    of n ingredients; ingredients without a rule cost nothing. *)
Theorem resolve_then_score :
  forall recipe pantryItems userRegion out,
    findIngredientSubstitutes recipe pantryItems userRegion = Returns out ->
    let result := analyzeAuthenticityScore recipe out in
    let matched := filter hasRule (authenticIngredients recipe) in
    length (feedback result) = length matched
    /\ map original out = matched
    /\ feedback result = map feedbackFor out
    /\ (Z.max 0 (100 - 20 * Z.of_nat (length (authenticIngredients recipe)))
        <= score result)%Z
    /\ (matched = [] -> score result = 100%Z).
Proof.
  intros recipe pantryItems userRegion out H result matched.
  subst result matched.
  apply returned_suggestions in H. destruct H as [_ ->].
  rewrite analyzeAuthenticityScore_closed. cbn [score feedback].
  pose proof (suggestion_originals pantryItems (authenticIngredients recipe))
    as Horig.
  set (out := flat_map (suggestion pantryItems) (authenticIngredients recipe)) in *.
  assert (Hlen : length out = length (filter hasRule (authenticIngredients recipe))).
  { now rewrite <- Horig, length_map. }
  pose proof (filter_length_le hasRule (authenticIngredients recipe)) as Hle.
  pose proof (countImpact_total out) as Htotal.
  pose proof (countImpact_nonneg minimal out).
  pose proof (countImpact_nonneg moderate out).
  pose proof (countImpact_nonneg significant out).
  split; [now rewrite length_map|]. split; [exact Horig|].
  split; [reflexivity|]. split; [lia|].
  intros Hnone. rewrite Hnone in Hlen. cbn [length] in Hlen. lia.
Qed.

Lemma resolve_then_score_witness :
  findIngredientSubstitutes
    {| authenticIngredients := ["Ghee"; "water"; "Fish Sauce"] |}
    [ {| name := "Unsalted BUTTER" |} ] ""
  = Returns
      [ {| original := "Ghee"; substitute := "butter";
           notes := "Unsalted butter is your best alternative, coconut oil changes flavor profile";
           flavorImpact := minimal |};
        {| original := "Fish Sauce"; substitute := "soy sauce with salt";
           notes := "Add a pinch of salt and a drop of vinegar to better mimic umami flavor";
           flavorImpact := significant |} ]
  /\ length (feedback
               (analyzeAuthenticityScore
                  {| authenticIngredients := ["Ghee"; "water"; "Fish Sauce"] |}
                  [ {| original := "Ghee"; substitute := "butter";
                       notes := "Unsalted butter is your best alternative, coconut oil changes flavor profile";
                       flavorImpact := minimal |};
                    {| original := "Fish Sauce"; substitute := "soy sauce with salt";
                       notes := "Add a pinch of salt and a drop of vinegar to better mimic umami flavor";
                       flavorImpact := significant |} ]))
     = length (filter hasRule ["Ghee"; "water"; "Fish Sauce"]).
Proof.
  split; [reflexivity|].
  exact (proj1 (@resolve_then_score
                  {| authenticIngredients := ["Ghee"; "water"; "Fish Sauce"] |}
                  [ {| name := "Unsalted BUTTER" |} ] "" _ eq_refl)).
Defined.
